(** * ps3rover20: PS3 controller front end of the Rover 2.0

    A shallow embedding of [ps3rover20.py]: the controller-to-command
    translation run on every video frame ([processVideo]), the audio
    capture ([processAudio]), the resource release ([cleanup]) and the
    process life cycle ([main] with its signal handler).

    Conventions of the embedding.
    - Python floats that the program only negates, subtracts and compares
      (stick readings, [time.time()] stamps, the two thresholds) are
      rationals [Q]; every finite double is a rational, negation and
      comparison are exact on doubles, and the subtraction of two time
      stamps is taken exactly.
    - Calls into collaborators (the [Rover20] base class, OpenCV, the file
      object) are recorded as [event]s in a trace, in program order.  The
      vehicle commands and the [pygame] reads are taken to return; the
      calls that the program guards with [try] can raise.  Console output
      is left out.
    - What the outside world answers (button and stick state, the clock,
      the decoder, the pressed key, whether a write succeeds) is an
      explicit argument of the operation that asks for it. *)

From Stdlib Require Import ZArith QArith Qabs Lqa Lia Bool List String Ascii.
From Stdlib Require Import DecimalString DecimalPos DecimalZ.
From stdpp Require Import gmap strings.
Import ListNotations.

Local Open Scope Z_scope.
Local Open Scope Q_scope.

(** ** Module-level configuration (lines 28-36) *)

Definition BUTTON_LIGHTS : Z := 3%Z.
Definition BUTTON_STEALTH : Z := 1%Z.
Definition BUTTON_CAMERA_UP : Z := 0%Z.
Definition BUTTON_CAMERA_DOWN : Z := 2%Z.

Definition MIN_BUTTON_LAG_SEC : Q := 5 # 10.
Definition MIN_AXIS_ABSVAL : Q := 1 # 100.

(** Python's [a > b] and [a < b] on the numbers above. *)
Definition Qgtb (a b : Q) : bool := negb (Qle_bool a b).
Definition Qltb (a b : Q) : bool := negb (Qle_bool b a).

(** ** The controller, as [pygame.joystick.Joystick] is read after
    [pygame.event.pump()] *)

Record Controller := {
  get_button : Z -> bool;
  get_axis : Z -> Q
}.

(** ** [PS3Rover._get_axis_value] (lines 164-173) *)

Definition _get_axis_value (controller : Controller) (index : Z) : Z :=
  let value := - get_axis controller index in
  if Qgtb value MIN_AXIS_ABSVAL then 1%Z
  else if Qltb value (- MIN_AXIS_ABSVAL) then (-1)%Z
  else 0%Z.


(** ** Exceptions and results

    The exception classes the program names or can meet.  [IOError] is
    Python 3's [OSError]; [SystemExit] and [KeyboardInterrupt] derive from
    [BaseException], the others from [Exception]. *)

Inductive pyexn :=
| IOError
| ValueError
| Cv2Error
| RuntimeError
| AttributeError
| OtherException
| KeyboardInterrupt
| SystemExit (code : Z).

Inductive result (A : Type) :=
| Ok (a : A)
| Raise (e : pyexn).
Arguments Ok {A} a.
Arguments Raise {A} e.

(** How a call that yields no value ends. *)
Inductive outcome :=
| Returned
| Raised (e : pyexn).

(** ** Calls into collaborators, recorded in program order *)

Definition raster := list Byte.byte.

Inductive event :=
| TurnLightsOn
| TurnLightsOff
| TurnStealthOn
| TurnStealthOff
| MoveCameraVertical (direction : Z)
| SetTreads (left right : Z)
| Imshow (image : raster)
| DestroyAllWindows
| PcmClose
| CleanupCalled
| RoverClose.



Definition is_lights (e : event) : bool :=
  match e with TurnLightsOn | TurnLightsOff => true | _ => false end.

Definition is_stealth (e : event) : bool :=
  match e with TurnStealthOn | TurnStealthOff => true | _ => false end.

Definition is_display (e : event) : bool :=
  match e with Imshow _ => true | _ => false end.

Definition is_camera (e : event) : bool :=
  match e with MoveCameraVertical _ => true | _ => false end.


(** ** The capture file [rover20.pcm]

    [written] is the text the file holds, [closed] whether [close()] was
    called on it, and [room] how many further [write] calls the device
    accepts before one fails with [IOError] ([None]: it never does). *)

Record PcmFile := {
  written : string;
  closed : bool;
  room : option nat
}.

Definition newline : string := String (ascii_of_nat 10) EmptyString.

(** [f'{samp}\n'] for an [int] sample. *)
Definition format_sample (samp : Z) : string :=
  String.append (NilZero.string_of_int (Z.to_int samp)) newline.

(** [file.write(s)]: [ValueError] on a closed file, [IOError] when the
    device refuses the write, otherwise the text is appended. *)
Definition pcm_write (f : PcmFile) (s : string) : result PcmFile :=
  if closed f then Raise ValueError
  else match room f with
       | Some O => Raise IOError
       | Some (S n) =>
           Ok {| written := String.append (written f) s;
                 closed := false; room := Some n |}
       | None =>
           Ok {| written := String.append (written f) s;
                 closed := false; room := None |}
       end.

Definition pcm_close (f : PcmFile) : PcmFile :=
  {| written := written f; closed := true; room := room f |}.

(** The lines of a text, each ended by a newline. *)
Fixpoint lines_from (acc : string) (s : string) : list string :=
  match s with
  | EmptyString =>
      match acc with EmptyString => [] | _ => [acc] end
  | String c rest =>
      if Ascii.eqb c (ascii_of_nat 10)
      then acc :: lines_from EmptyString rest
      else lines_from (String.append acc (String c EmptyString)) rest
  end.

Definition lines (s : string) : list string := lines_from EmptyString s.

(** ** The OpenCV module, when its import succeeded (lines 49-54)

    [imdecode] stands for [np.frombuffer] followed by [cv2.imdecode]: a
    raster, [None] (data that is no image), or an exception. *)

Inductive decode_result :=
| Decoded (image : raster)
| DecodeNone
| DecodeRaises (e : pyexn).

Record Cv2 := {
  imdecode : list Byte.byte -> decode_result
}.

(** ** The [PS3Rover] object (fields of [__init__], lines 60-97) *)

Record PS3Rover := {
  quit : bool;
  lights_are_on : bool;
  stealth_is_on : bool;
  last_button_time : Q;
  video_enabled : bool;
  pcm_file : option PcmFile
}.

Definition set_quit (self : PS3Rover) (v : bool) : PS3Rover :=
  {| quit := v; lights_are_on := lights_are_on self;
     stealth_is_on := stealth_is_on self;
     last_button_time := last_button_time self;
     video_enabled := video_enabled self; pcm_file := pcm_file self |}.

Definition set_lights_are_on (self : PS3Rover) (v : bool) : PS3Rover :=
  {| quit := quit self; lights_are_on := v;
     stealth_is_on := stealth_is_on self;
     last_button_time := last_button_time self;
     video_enabled := video_enabled self; pcm_file := pcm_file self |}.

Definition set_stealth_is_on (self : PS3Rover) (v : bool) : PS3Rover :=
  {| quit := quit self; lights_are_on := lights_are_on self;
     stealth_is_on := v;
     last_button_time := last_button_time self;
     video_enabled := video_enabled self; pcm_file := pcm_file self |}.

Definition set_last_button_time (self : PS3Rover) (v : Q) : PS3Rover :=
  {| quit := quit self; lights_are_on := lights_are_on self;
     stealth_is_on := stealth_is_on self;
     last_button_time := v;
     video_enabled := video_enabled self; pcm_file := pcm_file self |}.

Definition set_pcm_file (self : PS3Rover) (v : option PcmFile) : PS3Rover :=
  {| quit := quit self; lights_are_on := lights_are_on self;
     stealth_is_on := stealth_is_on self;
     last_button_time := last_button_time self;
     video_enabled := video_enabled self; pcm_file := v |}.

(** What the constructor finds: whether [Rover20.__init__] raises, the
    number of joysticks, whether [cv2.namedWindow] succeeds, whether
    [open('rover20.pcm', 'w')] succeeds, the room on the device, and
    whether [rover.controller.get_name()] raises when the banner is
    printed (line 214). *)
Record Startup := {
  super_init : option pyexn;
  joystick_count : nat;
  namedWindow_ok : bool;
  open_ok : bool;
  disk_room : option nat;
  get_name : option pyexn
}.

Definition __init__ (cv2 : option Cv2) (st : Startup) : result PS3Rover :=
  match super_init st with
  | Some e => Raise e
  | None =>
      match joystick_count st with
      | O => Raise RuntimeError
      | S _ =>
          Ok {| quit := false;
                lights_are_on := false;
                stealth_is_on := false;
                last_button_time := 0;
                video_enabled :=
                  match cv2 with
                  | Some _ => namedWindow_ok st
                  | None => false
                  end;
                pcm_file :=
                  if open_ok st
                  then Some {| written := EmptyString; closed := false;
                               room := disk_room st |}
                  else None |}
      end
  end.

(** ** [PS3Rover.processAudio] (lines 99-111) *)

(** The [for] loop of line 108: it stops at the first write that raises. *)
Fixpoint write_samples (f : PcmFile) (pcmsamples : list Z)
  : PcmFile * outcome :=
  match pcmsamples with
  | [] => (f, Returned)
  | samp :: rest =>
      match pcm_write f (format_sample samp) with
      | Ok f' => write_samples f' rest
      | Raise e => (f, Raised e)
      end
  end.

Definition processAudio (self : PS3Rover) (pcmsamples : list Z)
  : PS3Rover * outcome :=
  match pcm_file self with
  | Some f =>
      let '(f', o) := write_samples f pcmsamples in
      (set_pcm_file self (Some f'),
       match o with
       | Raised IOError => Returned
       | _ => o
       end)
  | None => (self, Returned)
  end.

(** ** [PS3Rover._check_button] (lines 176-191)

    [time_time] is what [time.time()] returns if this call reads the
    clock.  A routine is the collaborator call it makes. *)

Definition call_routine (routine : option event) : list event :=
  match routine with
  | Some r => [r]
  | None => []
  end.

Definition _check_button (self : PS3Rover) (controller : Controller)
    (time_time : Q) (flag : bool) (button_id : Z)
    (on_routine off_routine : option event)
  : PS3Rover * bool * list event :=
  if get_button controller button_id then
    let current_time := time_time in
    if Qgtb (current_time - last_button_time self) MIN_BUTTON_LAG_SEC then
      let self := set_last_button_time self current_time in
      if flag
      then (self, false, call_routine off_routine)
      else (self, true, call_routine on_routine)
    else (self, flag, [])
  else (self, flag, []).

(** ** [PS3Rover.processVideo] (lines 113-161) *)

(** What one call of [processVideo] meets: the controller after
    [pygame.event.pump()], the clock at the lights check and at the
    stealth check, whether [cv2.imshow] raises, and the key code that
    [cv2.waitKey(1)] returns. *)
Record Tick := {
  controller : Controller;
  time_lights : Q;
  time_stealth : Q;
  imshow_raises : option pyexn;
  waitKey : Z
}.

(** Lines 124-127. *)
Definition toggle_lights (self : PS3Rover) (c : Controller) (now : Q)
  : PS3Rover * list event :=
  let '(self, flag, ev) :=
    _check_button self c now (lights_are_on self) BUTTON_LIGHTS
                  (Some TurnLightsOn) (Some TurnLightsOff) in
  (set_lights_are_on self flag, ev).

(** Lines 130-133. *)
Definition toggle_stealth (self : PS3Rover) (c : Controller) (now : Q)
  : PS3Rover * list event :=
  let '(self, flag, ev) :=
    _check_button self c now (stealth_is_on self) BUTTON_STEALTH
                  (Some TurnStealthOn) (Some TurnStealthOff) in
  (set_stealth_is_on self flag, ev).

(** Lines 136-141. *)
Definition move_camera (c : Controller) : list event :=
  if get_button c BUTTON_CAMERA_UP then [MoveCameraVertical 1]
  else if get_button c BUTTON_CAMERA_DOWN then [MoveCameraVertical (-1)]
  else [MoveCameraVertical 0].

(** Line 144. *)
Definition set_treads (c : Controller) : list event :=
  [SetTreads (_get_axis_value c 1) (_get_axis_value c 3)].

(** [except (cv2.error, ValueError)] of line 160. *)
Definition except_cv2_ValueError (e : pyexn) : outcome :=
  match e with
  | Cv2Error | ValueError => Returned
  | _ => Raised e
  end.

(** Lines 147-161. *)
Definition display_video (cv2 : option Cv2) (self : PS3Rover) (io : Tick)
    (jpegbytes : list Byte.byte)
  : PS3Rover * list event * outcome :=
  match video_enabled self, cv2 with
  | true, Some cv =>
      match imdecode cv jpegbytes with
      | Decoded image =>
          match imshow_raises io with
          | Some e => (self, [], except_cv2_ValueError e)
          | None =>
              let key := Z.land (waitKey io) 255 in
              if Z.eqb key 27
              then (set_quit self true, [Imshow image], Returned)
              else (self, [Imshow image], Returned)
          end
      | DecodeNone => (self, [], Returned)
      | DecodeRaises e => (self, [], except_cv2_ValueError e)
      end
  | _, _ => (self, [], Returned)
  end.

Definition processVideo (cv2 : option Cv2) (self : PS3Rover) (io : Tick)
    (jpegbytes : list Byte.byte)
  : PS3Rover * list event * outcome :=
  let c := controller io in
  let '(self, ev_lights) := toggle_lights self c (time_lights io) in
  let '(self, ev_stealth) := toggle_stealth self c (time_stealth io) in
  let ev_camera := move_camera c in
  let ev_treads := set_treads c in
  let '(self, ev_video, o) := display_video cv2 self io jpegbytes in
  (self, ev_lights ++ ev_stealth ++ ev_camera ++ ev_treads ++ ev_video, o).

(** ** [PS3Rover.cleanup] (lines 193-202) and [__del__] (lines 204-206) *)

Definition cleanup (cv2 : option Cv2) (self : PS3Rover)
  : PS3Rover * list event :=
  let '(self, ev_pcm) :=
    match pcm_file self with
    | Some f => (set_pcm_file self (Some (pcm_close f)), [PcmClose])
    | None => (self, [])
    end in
  let ev_video :=
    match video_enabled self, cv2 with
    | true, Some _ => [DestroyAllWindows]
    | _, _ => []
    end in
  (self, CleanupCalled :: ev_pcm ++ ev_video).

Definition __del__ (cv2 : option Cv2) (self : PS3Rover)
  : PS3Rover * list event :=
  cleanup cv2 self.

(** ** The module's global names and [_signal_handler] (lines 40-47) *)

Inductive pyobj :=
| PyNone
| PyNumber (q : Q)
| PyModule
| PyClass
| PyFunction
| PyRover.

(** The names bound at module level once the file has run as a script;
    [rover] is a local of [main] and is not among them. *)
Definition module_globals (cv2 : option Cv2) : gmap string pyobj :=
  list_to_map
    [ ("Rover20"%string, PyClass); ("time"%string, PyModule);
      ("pygame"%string, PyModule); ("sys"%string, PyModule);
      ("signal"%string, PyModule); ("np"%string, PyModule);
      ("Optional"%string, PyClass);
      ("BUTTON_LIGHTS"%string, PyNumber (inject_Z BUTTON_LIGHTS));
      ("BUTTON_STEALTH"%string, PyNumber (inject_Z BUTTON_STEALTH));
      ("BUTTON_CAMERA_UP"%string, PyNumber (inject_Z BUTTON_CAMERA_UP));
      ("BUTTON_CAMERA_DOWN"%string, PyNumber (inject_Z BUTTON_CAMERA_DOWN));
      ("MIN_BUTTON_LAG_SEC"%string, PyNumber MIN_BUTTON_LAG_SEC);
      ("MIN_AXIS_ABSVAL"%string, PyNumber MIN_AXIS_ABSVAL);
      ("_signal_handler"%string, PyFunction);
      ("cv2"%string, match cv2 with Some _ => PyModule | None => PyNone end);
      ("PS3Rover"%string, PyClass); ("main"%string, PyFunction) ].

(** The handler ends by raising [SystemExit(0)]; an object found under
    [rover] that is no rover has no [cleanup] attribute. *)
Definition _signal_handler (cv2 : option Cv2) (f_globals : gmap string pyobj)
    (self : PS3Rover)
  : PS3Rover * list event * pyexn :=
  match f_globals !! "rover"%string with
  | Some PyRover =>
      let '(self, ev) := cleanup cv2 self in
      (self, ev ++ [RoverClose], SystemExit 0)
  | None | Some PyNone => (self, [], SystemExit 0)
  | Some (PyNumber q) =>
      if Qeq_bool q 0 then (self, [], SystemExit 0)
      else (self, [], AttributeError)
  | Some _ => (self, [], AttributeError)
  end.

(** ** [main] (lines 208-244) *)

(** What happens during one [time.sleep(0.01)] of the idle loop. *)
Inductive arrival :=
| Idle
| VideoFrame (io : Tick) (jpegbytes : list Byte.byte)
| AudioBatch (pcmsamples : list Z)
| Sigint.

(** Lines 227-228.  [None]: the loop is still running when the listed
    arrivals are used up.  An exception of a media callback ends that
    callback, not the loop. *)
Fixpoint idle_loop (cv2 : option Cv2) (self : PS3Rover)
    (arrivals : list arrival)
  : option (PS3Rover * list event * outcome) :=
  if quit self then Some (self, [], Returned)
  else
    match arrivals with
    | [] => None
    | a :: rest =>
        match a with
        | Idle => idle_loop cv2 self rest
        | VideoFrame io jpegbytes =>
            let '(self', ev, _) := processVideo cv2 self io jpegbytes in
            match idle_loop cv2 self' rest with
            | Some (self'', ev', o) => Some (self'', ev ++ ev', o)
            | None => None
            end
        | AudioBatch pcmsamples =>
            let '(self', _) := processAudio self pcmsamples in
            idle_loop cv2 self' rest
        | Sigint =>
            let '(self', ev, e) :=
              _signal_handler cv2 (module_globals cv2) self in
            Some (self', ev, Raised e)
        end
    end.

(** How [main] ends: by [return code], or with an exception that no
    [except] clause of lines 230-237 takes. *)
Inductive ending :=
| Return (code : Z)
| Uncaught (e : pyexn).

Definition except_clauses (o : outcome) : ending :=
  match o with
  | Returned => Return 0
  | Raised RuntimeError => Return 1
  | Raised KeyboardInterrupt => Return 0
  | Raised (SystemExit code) => Uncaught (SystemExit code)
  | Raised _ => Return 1
  end.

(** The [finally] block, lines 238-243; [rover] is [None] until the
    constructor has returned. *)
Definition finally_block (cv2 : option Cv2) (rover : option PS3Rover)
  : list event :=
  match rover with
  | Some self =>
      let '(_, ev) := cleanup cv2 self in
      ev ++ [RoverClose]
  | None => []
  end.

Definition main (cv2 : option Cv2) (st : Startup) (arrivals : list arrival)
  : option (list event * ending) :=
  match __init__ cv2 st with
  | Raise e => Some (finally_block cv2 None, except_clauses (Raised e))
  | Ok self =>
      match get_name st with
      | Some e =>
          Some (finally_block cv2 (Some self), except_clauses (Raised e))
      | None =>
          match idle_loop cv2 self arrivals with
          | None => None
          | Some (self', ev, o) =>
              Some (ev ++ finally_block cv2 (Some self'), except_clauses o)
          end
      end
  end.

(** ** Drivers used to state properties over several calls *)

(** Consecutive [_check_button] calls on one control, the returned flag
    fed back as the next call's [flag] as [processVideo] does; with the
    trace, the number of calls whose returned flag differs from the flag
    passed in. *)
Fixpoint check_button_calls (self : PS3Rover) (flag : bool) (button_id : Z)
    (on_routine off_routine : option event) (calls : list (Controller * Q))
  : PS3Rover * bool * list event * nat :=
  match calls with
  | [] => (self, flag, [], O)
  | (c, now) :: rest =>
      let '(self1, flag1, ev1) :=
        _check_button self c now flag button_id on_routine off_routine in
      let '(self2, flag2, ev2, n) :=
        check_button_calls self1 flag1 button_id on_routine off_routine rest in
      (self2, flag2, ev1 ++ ev2, ((if Bool.eqb flag flag1 then 0 else 1) + n)%nat)
  end.

(** The text of a batch: one line per sample, in batch order. *)
Fixpoint batch_text (pcmsamples : list Z) : string :=
  match pcmsamples with
  | [] => EmptyString
  | samp :: rest => String.append (format_sample samp) (batch_text rest)
  end.

(** How many of [n] writes a device with the given room accepts. *)
Definition accepted (room : option nat) (n : nat) : nat :=
  match room with
  | None => n
  | Some r => Nat.min r n
  end.

(** Consecutive calls in time order and less than [d] apart. *)
Fixpoint closely_spaced (d : Q) (calls : list (Controller * Q)) : Prop :=
  match calls with
  | [] => True
  | (_, t1) :: rest =>
      match rest with
      | [] => True
      | (_, t2) :: _ => 0 <= t2 - t1 /\ t2 - t1 < d
      end /\ closely_spaced d rest
  end.

(** All calls within one stretch of length [d]: no call is more than [d]
    after an earlier one. *)
Definition within_one_interval (d : Q) (calls : list (Controller * Q))
  : Prop :=
  ForallOrdPairs (fun earlier later => snd later - snd earlier <= d) calls.

(** The operations that run on the object once it is constructed. *)
Inductive operation :=
| OpProcessVideo (io : Tick) (jpegbytes : list Byte.byte)
| OpProcessAudio (pcmsamples : list Z)
| OpCleanup
| OpDel
| OpSignalHandler (f_globals : gmap string pyobj).

Definition perform (cv2 : option Cv2) (op : operation) (self : PS3Rover)
  : PS3Rover :=
  match op with
  | OpProcessVideo io jpegbytes =>
      fst (fst (processVideo cv2 self io jpegbytes))
  | OpProcessAudio pcmsamples => fst (processAudio self pcmsamples)
  | OpCleanup => fst (cleanup cv2 self)
  | OpDel => fst (__del__ cv2 self)
  | OpSignalHandler f_globals =>
      fst (fst (_signal_handler cv2 f_globals self))
  end.

(** A frame on which the ESC key is seen: the window exists, the frame
    decodes and is shown, and the low byte of the key code is 27. *)
Definition escape_seen (cv2 : option Cv2) (enabled : bool) (io : Tick)
    (jpegbytes : list Byte.byte) : bool :=
  match enabled, cv2 with
  | true, Some cv =>
      match imdecode cv jpegbytes, imshow_raises io with
      | Decoded _, None => Z.eqb (Z.land (waitKey io) 255) 27
      | _, _ => false
      end
  | _, _ => false
  end.


(** A frame that does not decode: the decoder returns [None], or raises
    one of the two exceptions it has for bad data. *)
Definition decode_fails (r : decode_result) : bool :=
  match r with
  | Decoded _ => false
  | DecodeNone => true
  | DecodeRaises Cv2Error | DecodeRaises ValueError => true
  | DecodeRaises _ => false
  end.

(** Whether a check of a held button at [now] would be debounced. *)
Definition suppressed (self : PS3Rover) (now : Q) : bool :=
  negb (Qgtb (now - last_button_time self) MIN_BUTTON_LAG_SEC).

(** ** Further drivers and observers *)

Definition is_treads (e : event) : bool :=
  match e with SetTreads _ _ => true | _ => false end.



(** The commands sent to the vehicle, as opposed to the window calls. *)
Definition is_vehicle (e : event) : bool :=
  match e with
  | TurnLightsOn | TurnLightsOff | TurnStealthOn | TurnStealthOff
  | MoveCameraVertical _ | SetTreads _ _ => true
  | _ => false
  end.

(** [processVideo] called on a sequence of frames, one after the other,
    whatever way each call ends. *)
Fixpoint process_frames (cv2 : option Cv2) (self : PS3Rover)
    (frames : list (Tick * list Byte.byte))
  : PS3Rover * list event :=
  match frames with
  | [] => (self, [])
  | (io, jpegbytes) :: rest =>
      let '(self1, ev1, _) := processVideo cv2 self io jpegbytes in
      let '(self2, ev2) := process_frames cv2 self1 rest in
      (self2, ev1 ++ ev2)
  end.

(** The state of the vehicle's lights, and of its stealth mode, after the
    commands of a trace, from a given state. *)
Definition vehicle_lights (initial : bool) (trace : list event) : bool :=
  List.fold_left
    (fun on e =>
       match e with
       | TurnLightsOn => true
       | TurnLightsOff => false
       | _ => on
       end)
    trace initial.

Definition vehicle_stealth (initial : bool) (trace : list event) : bool :=
  List.fold_left
    (fun on e =>
       match e with
       | TurnStealthOn => true
       | TurnStealthOff => false
       | _ => on
       end)
    trace initial.

(** Reading the capture file back: the decimal text of a sample, the
    integer a line stands for, and the integers of all lines of a text. *)
Definition decimal (z : Z) : string :=
  NilZero.string_of_int (Z.to_int z).

Definition parse_line (line : string) : option Z :=
  option_map Z.of_int (NilZero.int_of_string line).

Definition read_samples (text : string) : list (option Z) :=
  List.map parse_line (lines text).

Fixpoint no_newline (s : string) : bool :=
  match s with
  | EmptyString => true
  | String c rest => negb (Ascii.eqb c (ascii_of_nat 10)) && no_newline rest
  end.

(** The arrivals that bear on control: frames and the interrupt. *)
Definition is_control_arrival (a : arrival) : bool :=
  match a with
  | VideoFrame _ _ | Sigint => true
  | Idle | AudioBatch _ => false
  end.

(** * Properties *)

Lemma Qgtb_true (a b : Q) : Qgtb a b = true <-> b < a.
Proof.
  unfold Qgtb. rewrite negb_true_iff, <- not_true_iff_false, Qle_bool_iff.
  split; intro H; lra.
Qed.

Lemma Qgtb_false (a b : Q) : Qgtb a b = false <-> a <= b.
Proof.
  unfold Qgtb. rewrite negb_false_iff, Qle_bool_iff. tauto.
Qed.

Lemma Qltb_true (a b : Q) : Qltb a b = true <-> a < b.
Proof. unfold Qltb. apply (Qgtb_true b a). Qed.

Lemma Qltb_false (a b : Q) : Qltb a b = false <-> b <= a.
Proof. unfold Qltb. apply (Qgtb_false b a). Qed.

Lemma Qsgn_pos (q : Q) : 0 < q -> Z.sgn (Qnum q) = 1%Z.
Proof.
  unfold Qlt. simpl. rewrite Z.mul_1_r. intro H.
  apply Z.sgn_pos. exact H.
Qed.

Lemma Qsgn_neg (q : Q) : q < 0 -> Z.sgn (Qnum q) = (-1)%Z.
Proof.
  unfold Qlt. simpl. rewrite Z.mul_1_r. intro H.
  apply Z.sgn_neg. exact H.
Qed.

(** C5. The axis mapping returns -1, 0 or 1; it returns 0 exactly when the
    magnitude of the raw reading is at most the dead zone (so both edges of
    the dead zone map to 0); a result of 1 means the negated reading is
    positive and a result of -1 means it is negative: the sign of a
    non-zero result is the sign of [- raw]. *)
Theorem get_axis_value_tristate (controller : Controller) (index : Z) :
  let raw := get_axis controller index in
  let r := _get_axis_value controller index in
  (r = (-1)%Z \/ r = 0%Z \/ r = 1%Z) /\
  (r = 0%Z <-> Qabs raw <= MIN_AXIS_ABSVAL) /\
  (r = 1%Z <-> 0 < - raw /\ ~ Qabs raw <= MIN_AXIS_ABSVAL) /\
  (r = (-1)%Z <-> - raw < 0 /\ ~ Qabs raw <= MIN_AXIS_ABSVAL) /\
  (r <> 0%Z -> Z.sgn r = Z.sgn (Qnum (- raw))).
Proof.
  cbv zeta. unfold _get_axis_value.
  set (raw := get_axis controller index).
  assert (Hdz : 0 < MIN_AXIS_ABSVAL) by reflexivity.
  rewrite Qabs_Qle_condition.
  destruct (Qgtb (- raw) MIN_AXIS_ABSVAL) eqn:Hup;
    [ apply Qgtb_true in Hup
    | apply Qgtb_false in Hup;
      destruct (Qltb (- raw) (- MIN_AXIS_ABSVAL)) eqn:Hdown;
      [ apply Qltb_true in Hdown | apply Qltb_false in Hdown ] ].
  - (* value > MIN_AXIS_ABSVAL *)
    split; [ tauto | ].
    split; [ split; [ discriminate | intros [H1 H2]; exfalso; lra ] | ].
    split; [ split; [ intros _; split; [ lra | intros [H1 H2]; lra ] | reflexivity ] | ].
    split; [ split; [ discriminate | intros [H1 H2]; exfalso; lra ] | ].
    intros _. symmetry. apply Qsgn_pos. lra.
  - (* value < - MIN_AXIS_ABSVAL *)
    split; [ tauto | ].
    split; [ split; [ discriminate | intros [H1 H2]; exfalso; lra ] | ].
    split; [ split; [ discriminate | intros [H1 H2]; exfalso; lra ] | ].
    split; [ split; [ intros _; split; [ lra | intros [H1 H2]; lra ] | reflexivity ] | ].
    intros _. symmetry. apply Qsgn_neg. lra.
  - (* inside the dead zone *)
    split; [ tauto | ].
    split; [ split; [ intros _; split; lra | reflexivity ] | ].
    split; [ split; [ discriminate | intros [_ H]; exfalso; apply H; split; lra ] | ].
    split; [ split; [ discriminate | intros [_ H]; exfalso; apply H; split; lra ] | ].
    intros H. exfalso. apply H. reflexivity.
Qed.

Lemma get_axis_value_tristate_witness :
  let c := {| get_button := fun _ => false;
              get_axis := fun i =>
                if Z.eqb i 1 then 1 # 100
                else if Z.eqb i 3 then - (1 # 100)
                else - (8 # 10) |} in
  _get_axis_value c 1 = 0%Z /\
  _get_axis_value c 3 = 0%Z /\
  Z.sgn (_get_axis_value c 0) = 1%Z.
Proof.
  intros c.
  destruct (get_axis_value_tristate c 1) as (_ & [_ Hedge] & _).
  destruct (get_axis_value_tristate c 3) as (_ & [_ Hedge'] & _).
  destruct (get_axis_value_tristate c 0) as (_ & _ & _ & _ & Hsign).
  split; [ | split].
  - apply Hedge. vm_compute. discriminate.
  - apply Hedge'. vm_compute. discriminate.
  - rewrite Hsign; [reflexivity | vm_compute; discriminate].
Defined.

(** ** Debounced toggles *)

(** The two ways a [_check_button] call can go. *)
Lemma check_button_cases (self : PS3Rover) (c : Controller) (now : Q)
    (flag : bool) (button_id : Z) (on_routine off_routine : option event) :
  (get_button c button_id = true /\
   MIN_BUTTON_LAG_SEC < now - last_button_time self /\
   _check_button self c now flag button_id on_routine off_routine =
     (set_last_button_time self now, negb flag,
      call_routine (if flag then off_routine else on_routine)))
  \/
  ((get_button c button_id = false \/
    now - last_button_time self <= MIN_BUTTON_LAG_SEC) /\
   _check_button self c now flag button_id on_routine off_routine =
     (self, flag, [])).
Proof.
  unfold _check_button.
  destruct (get_button c button_id) eqn:Hheld.
  - destruct (Qgtb (now - last_button_time self) MIN_BUTTON_LAG_SEC) eqn:Hgt.
    + left. apply Qgtb_true in Hgt. destruct flag; auto.
    + right. apply Qgtb_false in Hgt. auto.
  - right. auto.
Qed.

Lemma suppressed_true (self : PS3Rover) (now : Q) :
  suppressed self now = true <->
  now - last_button_time self <= MIN_BUTTON_LAG_SEC.
Proof.
  unfold suppressed. rewrite negb_true_iff. apply Qgtb_false.
Qed.

(** C4. In a call of [_check_button] that is given both routines, the
    trace of routine calls is fixed by the flag's transition: exactly the
    on routine when the flag goes from false to true, exactly the off
    routine when it goes from true to false, and nothing when the
    returned flag is the flag passed in; the latter is the case (with the
    object untouched) whenever the button is not held or the call falls
    within the debounce interval. *)
Theorem check_button_action_paired (self : PS3Rover) (c : Controller)
    (now : Q) (flag : bool) (button_id : Z) (on off : event) :
  let '(self', flag', ev) :=
    _check_button self c now flag button_id (Some on) (Some off) in
  (flag = false /\ flag' = true -> ev = [on]) /\
  (flag = true /\ flag' = false -> ev = [off]) /\
  (flag' = flag -> ev = []) /\
  (ev = [] \/ (ev = [on] /\ flag = false /\ flag' = true)
           \/ (ev = [off] /\ flag = true /\ flag' = false)) /\
  (get_button c button_id = false \/
   now - last_button_time self <= MIN_BUTTON_LAG_SEC ->
   flag' = flag /\ ev = [] /\ self' = self).
Proof.
  destruct (check_button_cases self c now flag button_id (Some on) (Some off))
    as [(Hheld & Hgt & ->) | (Hidle & ->)].
  - destruct flag; simpl.
    + repeat apply conj; try (intros [? ?]; discriminate); try discriminate; auto.
      intros [H | H]; [congruence | lra].
    + repeat apply conj; try (intros [? ?]; discriminate); try discriminate; auto.
      intros [H | H]; [congruence | lra].
  - repeat apply conj; auto.
    + intros [-> H]. discriminate.
    + intros [-> H]. discriminate.
Qed.

Lemma check_button_action_paired_witness :
  let c := {| get_button := fun _ => true; get_axis := fun _ => 0 |} in
  let self := {| quit := false; lights_are_on := false;
                 stealth_is_on := false; last_button_time := 0;
                 video_enabled := false; pcm_file := None |} in
  _check_button self c 1 false BUTTON_LIGHTS
                (Some TurnLightsOn) (Some TurnLightsOff)
  = (set_last_button_time self 1, true, [TurnLightsOn]) /\
  snd (_check_button self c (1 # 4) false BUTTON_LIGHTS
                     (Some TurnLightsOn) (Some TurnLightsOff)) = [].
Proof.
  intros c self. split.
  - reflexivity.
  - pose proof (check_button_action_paired self c (1 # 4) false BUTTON_LIGHTS
                  TurnLightsOn TurnLightsOff) as H.
    destruct (_check_button self c (1 # 4) false BUTTON_LIGHTS
                (Some TurnLightsOn) (Some TurnLightsOff)) as [[self' flag'] ev].
    destruct H as (_ & _ & _ & _ & H).
    simpl. apply H. right. vm_compute. discriminate.
Defined.

Lemma set_lights_are_on_same (self : PS3Rover) :
  set_lights_are_on self (lights_are_on self) = self.
Proof. destruct self; reflexivity. Qed.

Lemma set_stealth_is_on_same (self : PS3Rover) :
  set_stealth_is_on self (stealth_is_on self) = self.
Proof. destruct self; reflexivity. Qed.

(** The lights statement either flips the lights flag, stamps the shared
    time and calls one lights routine, or leaves the object as it was. *)
Lemma toggle_lights_cases (self : PS3Rover) (c : Controller) (now : Q) :
  (get_button c BUTTON_LIGHTS = true /\
   MIN_BUTTON_LAG_SEC < now - last_button_time self /\
   toggle_lights self c now =
     (set_lights_are_on (set_last_button_time self now)
                        (negb (lights_are_on self)),
      [if lights_are_on self then TurnLightsOff else TurnLightsOn]))
  \/
  ((get_button c BUTTON_LIGHTS = false \/
    now - last_button_time self <= MIN_BUTTON_LAG_SEC) /\
   toggle_lights self c now = (self, [])).
Proof.
  unfold toggle_lights.
  destruct (check_button_cases self c now (lights_are_on self) BUTTON_LIGHTS
              (Some TurnLightsOn) (Some TurnLightsOff))
    as [(Hheld & Hgt & ->) | (Hidle & ->)].
  - left. repeat split; auto. destruct (lights_are_on self); reflexivity.
  - right. split; auto. rewrite set_lights_are_on_same. reflexivity.
Qed.

Lemma toggle_stealth_cases (self : PS3Rover) (c : Controller) (now : Q) :
  (get_button c BUTTON_STEALTH = true /\
   MIN_BUTTON_LAG_SEC < now - last_button_time self /\
   toggle_stealth self c now =
     (set_stealth_is_on (set_last_button_time self now)
                        (negb (stealth_is_on self)),
      [if stealth_is_on self then TurnStealthOff else TurnStealthOn]))
  \/
  ((get_button c BUTTON_STEALTH = false \/
    now - last_button_time self <= MIN_BUTTON_LAG_SEC) /\
   toggle_stealth self c now = (self, [])).
Proof.
  unfold toggle_stealth.
  destruct (check_button_cases self c now (stealth_is_on self) BUTTON_STEALTH
              (Some TurnStealthOn) (Some TurnStealthOff))
    as [(Hheld & Hgt & ->) | (Hidle & ->)].
  - left. repeat split; auto. destruct (stealth_is_on self); reflexivity.
  - right. split; auto. rewrite set_stealth_is_on_same. reflexivity.
Qed.

(** C2, as stated, fails: on the freshly constructed rover with both
    buttons held at time 1, the stealth check alone is not suppressed and
    turns stealth on, but after the lights check of the same instant it is
    suppressed and the stealth flag stays off. *)
Lemma lights_flip_suppresses_stealth :
  let c := {| get_button := fun _ => true; get_axis := fun _ => 0 |} in
  let self := {| quit := false; lights_are_on := false;
                 stealth_is_on := false; last_button_time := 0;
                 video_enabled := false; pcm_file := None |} in
  let self' := fst (toggle_lights self c 1) in
  suppressed self 1 = false /\
  suppressed self' 1 = true /\
  stealth_is_on (fst (toggle_stealth self c 1)) = true /\
  stealth_is_on (fst (toggle_stealth self' c 1)) = false.
Proof. vm_compute. repeat split. Qed.

(** C2, amended.  Each control has a flag of its own, and the two share
    the one [last_button_time].  Evaluating the lights toggle never
    changes the stealth flag; if it does not flip the lights flag it
    leaves the object as it was, so every later stealth check is
    suppressed or not as before; if it flips the lights flag at time
    [now], a stealth check at time [t] is from then on suppressed exactly
    when [t - now <= MIN_BUTTON_LAG_SEC].  The same holds with the two
    controls exchanged. *)
Theorem toggles_share_debounce_time (self : PS3Rover) (c : Controller)
    (now : Q) :
  (let self' := fst (toggle_lights self c now) in
   stealth_is_on self' = stealth_is_on self /\
   (lights_are_on self' = lights_are_on self ->
    self' = self /\ forall t, suppressed self' t = suppressed self t) /\
   (lights_are_on self' <> lights_are_on self ->
    forall t, suppressed self' t = true <-> t - now <= MIN_BUTTON_LAG_SEC))
  /\
  (let self' := fst (toggle_stealth self c now) in
   lights_are_on self' = lights_are_on self /\
   (stealth_is_on self' = stealth_is_on self ->
    self' = self /\ forall t, suppressed self' t = suppressed self t) /\
   (stealth_is_on self' <> stealth_is_on self ->
    forall t, suppressed self' t = true <-> t - now <= MIN_BUTTON_LAG_SEC)).
Proof.
  split; cbv zeta.
  - destruct (toggle_lights_cases self c now)
      as [(Hheld & Hgt & ->) | (Hidle & ->)]; simpl.
    + split; [reflexivity | split].
      * intros H. destruct (lights_are_on self); discriminate.
      * intros _ t. apply suppressed_true.
    + split; [reflexivity | split]; [auto | congruence].
  - destruct (toggle_stealth_cases self c now)
      as [(Hheld & Hgt & ->) | (Hidle & ->)]; simpl.
    + split; [reflexivity | split].
      * intros H. destruct (stealth_is_on self); discriminate.
      * intros _ t. apply suppressed_true.
    + split; [reflexivity | split]; [auto | congruence].
Qed.

Lemma toggles_share_debounce_time_witness :
  let c := {| get_button := fun _ => true; get_axis := fun _ => 0 |} in
  let self := {| quit := false; lights_are_on := false;
                 stealth_is_on := false; last_button_time := 0;
                 video_enabled := false; pcm_file := None |} in
  suppressed (fst (toggle_lights self c 1)) (5 # 4) = true /\
  fst (toggle_stealth self c (1 # 4)) = self.
Proof.
  intros c self.
  destruct (toggles_share_debounce_time self c 1) as [(_ & _ & Hflip) _].
  destruct (toggles_share_debounce_time self c (1 # 4)) as [_ (_ & Hsame & _)].
  split.
  - apply Hflip.
    + vm_compute. discriminate.
    + vm_compute. discriminate.
  - apply Hsame. reflexivity.
Defined.

(** ** One call of [processVideo] *)

Lemma display_video_fields (cv2 : option Cv2) (self : PS3Rover) (io : Tick)
    (jpegbytes : list Byte.byte) :
  let self' := fst (fst (display_video cv2 self io jpegbytes)) in
  lights_are_on self' = lights_are_on self /\
  stealth_is_on self' = stealth_is_on self /\
  last_button_time self' = last_button_time self /\
  video_enabled self' = video_enabled self /\
  pcm_file self' = pcm_file self.
Proof.
  unfold display_video.
  destruct (video_enabled self) eqn:Hen, cv2 as [cv|]; simpl; auto.
  destruct (imdecode cv jpegbytes); simpl; auto.
  destruct (imshow_raises io); simpl; auto.
  destruct (Z.land (waitKey io) 255 =? 27)%Z; simpl; auto.
Qed.

Lemma display_video_events (cv2 : option Cv2) (self : PS3Rover) (io : Tick)
    (jpegbytes : list Byte.byte) :
  let ev := snd (fst (display_video cv2 self io jpegbytes)) in
  ev = [] \/ exists image, ev = [Imshow image].
Proof.
  unfold display_video.
  destruct (video_enabled self), cv2 as [cv|]; simpl; auto.
  destruct (imdecode cv jpegbytes); simpl; auto.
  destruct (imshow_raises io); simpl; auto.
  destruct (Z.land (waitKey io) 255 =? 27)%Z; simpl; eauto.
Qed.

Lemma toggle_lights_events (self : PS3Rover) (c : Controller) (now : Q) :
  let ev := snd (toggle_lights self c now) in
  ev = [] \/ ev = [TurnLightsOn] \/ ev = [TurnLightsOff].
Proof.
  destruct (toggle_lights_cases self c now)
    as [(_ & _ & ->) | (_ & ->)]; simpl; auto.
  destruct (lights_are_on self); auto.
Qed.

Lemma toggle_stealth_events (self : PS3Rover) (c : Controller) (now : Q) :
  let ev := snd (toggle_stealth self c now) in
  ev = [] \/ ev = [TurnStealthOn] \/ ev = [TurnStealthOff].
Proof.
  destruct (toggle_stealth_cases self c now)
    as [(_ & _ & ->) | (_ & ->)]; simpl; auto.
  destruct (stealth_is_on self); auto.
Qed.

(** [processVideo] as the sequence of its five statements. *)
Lemma processVideo_steps (cv2 : option Cv2) (self : PS3Rover) (io : Tick)
    (jpegbytes : list Byte.byte) :
  let c := controller io in
  let s1 := fst (toggle_lights self c (time_lights io)) in
  let s2 := fst (toggle_stealth s1 c (time_stealth io)) in
  let v := display_video cv2 s2 io jpegbytes in
  processVideo cv2 self io jpegbytes =
    (fst (fst v),
     snd (toggle_lights self c (time_lights io)) ++
     snd (toggle_stealth s1 c (time_stealth io)) ++
     move_camera c ++ set_treads c ++ snd (fst v),
     snd v).
Proof.
  cbv zeta. unfold processVideo.
  destruct (toggle_lights self (controller io) (time_lights io)) as [s1 e1].
  simpl.
  destruct (toggle_stealth s1 (controller io) (time_stealth io)) as [s2 e2].
  simpl.
  destruct (display_video cv2 s2 io jpegbytes) as [[s3 e3] o].
  reflexivity.
Qed.


(** C8. Every call of [processVideo] issues exactly one camera command:
    [moveCameraVertical(1)] if the camera-up button is pressed (whatever
    the down button), otherwise [moveCameraVertical(-1)] if the
    camera-down button is pressed, otherwise [moveCameraVertical(0)]. *)
Theorem camera_command_tristate (cv2 : option Cv2) (self : PS3Rover)
    (io : Tick) (jpegbytes : list Byte.byte) :
  let c := controller io in
  let ev := snd (fst (processVideo cv2 self io jpegbytes)) in
  List.filter is_camera ev =
    [MoveCameraVertical
       (if get_button c BUTTON_CAMERA_UP then 1
        else if get_button c BUTTON_CAMERA_DOWN then (-1)
        else 0)%Z].
Proof.
  cbv zeta. rewrite processVideo_steps. cbv zeta.
  change (snd (fst (?a, ?b, ?c))) with b. cbv beta.
  rewrite !List.filter_app.
  assert (H1 : List.filter is_camera
                 (snd (toggle_lights self (controller io) (time_lights io)))
               = []).
  { destruct (toggle_lights_events self (controller io) (time_lights io))
      as [-> | [-> | ->]]; reflexivity. }
  rewrite H1. clear H1.
  set (s1 := fst (toggle_lights self (controller io) (time_lights io))).
  assert (H2 : List.filter is_camera
                 (snd (toggle_stealth s1 (controller io) (time_stealth io)))
               = []).
  { destruct (toggle_stealth_events s1 (controller io) (time_stealth io))
      as [-> | [-> | ->]]; reflexivity. }
  rewrite H2. clear H2.
  set (s2 := fst (toggle_stealth s1 (controller io) (time_stealth io))).
  assert (H3 : List.filter is_camera
                 (snd (fst (display_video cv2 s2 io jpegbytes))) = []).
  { destruct (display_video_events cv2 s2 io jpegbytes)
      as [-> | [image ->]]; reflexivity. }
  rewrite H3. clear H3.
  unfold move_camera, set_treads.
  destruct (get_button (controller io) BUTTON_CAMERA_UP);
    [reflexivity | ].
  destruct (get_button (controller io) BUTTON_CAMERA_DOWN); reflexivity.
Qed.

(** C10, amended.  In a call of [processVideo] in which the lights
    button and the stealth button are both held and the debounce interval
    has elapsed at the lights check, and whose stealth check reads the
    clock no more than [MIN_BUTTON_LAG_SEC] after its lights check, only
    the lights flag flips: the lights check stamps the shared
    [last_button_time] and the stealth check is suppressed.  One lights
    routine is called and no stealth routine. *)
Theorem both_held_lights_wins (cv2 : option Cv2) (self : PS3Rover)
    (io : Tick) (jpegbytes : list Byte.byte)
    (Hlights : get_button (controller io) BUTTON_LIGHTS = true)
    (Hstealth : get_button (controller io) BUTTON_STEALTH = true)
    (Helapsed : MIN_BUTTON_LAG_SEC < time_lights io - last_button_time self)
    (Htick : time_stealth io - time_lights io <= MIN_BUTTON_LAG_SEC) :
  let self' := fst (fst (processVideo cv2 self io jpegbytes)) in
  let ev := snd (fst (processVideo cv2 self io jpegbytes)) in
  lights_are_on self' = negb (lights_are_on self) /\
  stealth_is_on self' = stealth_is_on self /\
  last_button_time self' = time_lights io /\
  List.filter is_lights ev =
    [if lights_are_on self then TurnLightsOff else TurnLightsOn] /\
  List.filter is_stealth ev = [].
Proof.
  cbv zeta. rewrite processVideo_steps. cbv zeta.
  change (snd (fst (?a, ?b, ?c))) with b.
  change (fst (fst (?a, ?b, ?c))) with a. cbv beta.
  destruct (toggle_lights_cases self (controller io) (time_lights io))
    as [(_ & _ & ->) | ([Hno | Hno] & _)]; [ | congruence | lra ].
  cbn [fst snd].
  set (s1 := set_lights_are_on
               (set_last_button_time self (time_lights io))
               (negb (lights_are_on self))).
  destruct (toggle_stealth_cases s1 (controller io) (time_stealth io))
    as [(_ & Hgt & _) | (_ & ->)].
  { exfalso. unfold s1 in Hgt. simpl in Hgt. lra. }
  cbn [fst snd].
  destruct (display_video_fields cv2 s1 io jpegbytes)
    as (Hl & Hs & Ht & _ & _).
  cbv zeta in Hl, Hs, Ht. rewrite Hl, Hs, Ht.
  repeat apply conj; try reflexivity.
  - rewrite !List.filter_app.
    destruct (display_video_events cv2 s1 io jpegbytes)
      as [-> | [image ->]];
      unfold move_camera, set_treads;
      destruct (lights_are_on self);
      destruct (get_button (controller io) BUTTON_CAMERA_UP);
      destruct (get_button (controller io) BUTTON_CAMERA_DOWN);
      reflexivity.
  - rewrite !List.filter_app.
    destruct (display_video_events cv2 s1 io jpegbytes)
      as [-> | [image ->]];
      unfold move_camera, set_treads;
      destruct (lights_are_on self);
      destruct (get_button (controller io) BUTTON_CAMERA_UP);
      destruct (get_button (controller io) BUTTON_CAMERA_DOWN);
      reflexivity.
Qed.

Lemma both_held_lights_wins_witness :
  let self := {| quit := false; lights_are_on := false;
                 stealth_is_on := false; last_button_time := 0;
                 video_enabled := false; pcm_file := None |} in
  let io := {| controller := {| get_button := fun _ => true;
                                get_axis := fun _ => 0 |};
               time_lights := 1; time_stealth := 11 # 10;
               imshow_raises := None; waitKey := (-1)%Z |} in
  let self' := fst (fst (processVideo None self io [])) in
  lights_are_on self' = true /\ stealth_is_on self' = false.
Proof.
  intros self io.
  destruct (both_held_lights_wins None self io [])
    as (Hl & Hs & _).
  - reflexivity.
  - reflexivity.
  - vm_compute. reflexivity.
  - vm_compute. discriminate.
  - split; [exact Hl | exact Hs].
Defined.

(** C10, as stated, fails: each check reads the clock itself, with the
    lights routine called in between.  On the freshly constructed rover
    with both buttons held, a call whose lights check reads 1 and whose
    stealth check reads 7/4 flips both flags and calls both routines. *)
Lemma slow_frame_flips_both_flags :
  let self := {| quit := false; lights_are_on := false;
                 stealth_is_on := false; last_button_time := 0;
                 video_enabled := false; pcm_file := None |} in
  let io := {| controller := {| get_button := fun _ => true;
                                get_axis := fun _ => 0 |};
               time_lights := 1; time_stealth := 7 # 4;
               imshow_raises := None; waitKey := (-1)%Z |} in
  let r := processVideo None self io [] in
  get_button (controller io) BUTTON_LIGHTS = true /\
  get_button (controller io) BUTTON_STEALTH = true /\
  MIN_BUTTON_LAG_SEC < time_lights io - last_button_time self /\
  lights_are_on (fst (fst r)) = negb (lights_are_on self) /\
  stealth_is_on (fst (fst r)) = negb (stealth_is_on self) /\
  List.filter is_lights (snd (fst r)) = [TurnLightsOn] /\
  List.filter is_stealth (snd (fst r)) = [TurnStealthOn].
Proof. vm_compute. repeat apply conj; reflexivity. Qed.

(** If the stealth check reads the clock more than the debounce interval
    after a lights flip of the same call, both flags flip. *)
Lemma slow_tick_flips_both (cv2 : option Cv2) (self : PS3Rover)
    (io : Tick) (jpegbytes : list Byte.byte)
    (Hlights : get_button (controller io) BUTTON_LIGHTS = true)
    (Hstealth : get_button (controller io) BUTTON_STEALTH = true)
    (Helapsed : MIN_BUTTON_LAG_SEC < time_lights io - last_button_time self)
    (Hslow : MIN_BUTTON_LAG_SEC < time_stealth io - time_lights io) :
  let self' := fst (fst (processVideo cv2 self io jpegbytes)) in
  lights_are_on self' = negb (lights_are_on self) /\
  stealth_is_on self' = negb (stealth_is_on self).
Proof.
  cbv zeta. rewrite processVideo_steps. cbv zeta.
  change (fst (fst (?a, ?b, ?c))) with a. cbv beta.
  destruct (toggle_lights_cases self (controller io) (time_lights io))
    as [(_ & _ & ->) | ([Hno | Hno] & _)]; [ | congruence | lra ].
  cbn [fst snd].
  set (s1 := set_lights_are_on
               (set_last_button_time self (time_lights io))
               (negb (lights_are_on self))).
  destruct (toggle_stealth_cases s1 (controller io) (time_stealth io))
    as [(_ & _ & ->) | ([Hno | Hno] & _)];
    [ | congruence | exfalso; unfold s1 in Hno; simpl in Hno; lra ].
  cbn [fst snd].
  match goal with
  | |- context [display_video cv2 ?s io jpegbytes] =>
      destruct (display_video_fields cv2 s io jpegbytes) as (Hl & Hs & _)
  end.
  cbv zeta in Hl, Hs. rewrite Hl, Hs. split; reflexivity.
Qed.

Lemma toggle_lights_fields (self : PS3Rover) (c : Controller) (now : Q) :
  let self' := fst (toggle_lights self c now) in
  quit self' = quit self /\
  stealth_is_on self' = stealth_is_on self /\
  video_enabled self' = video_enabled self /\
  pcm_file self' = pcm_file self.
Proof.
  destruct (toggle_lights_cases self c now)
    as [(_ & _ & ->) | (_ & ->)]; simpl; auto.
Qed.

Lemma toggle_stealth_fields (self : PS3Rover) (c : Controller) (now : Q) :
  let self' := fst (toggle_stealth self c now) in
  quit self' = quit self /\
  lights_are_on self' = lights_are_on self /\
  video_enabled self' = video_enabled self /\
  pcm_file self' = pcm_file self.
Proof.
  destruct (toggle_stealth_cases self c now)
    as [(_ & _ & ->) | (_ & ->)]; simpl; auto.
Qed.

(** The object that reaches the display block of [processVideo] has the
    [quit], [video_enabled] and [pcm_file] the call started with. *)
Lemma before_display_fields (self : PS3Rover) (c : Controller)
    (t_lights t_stealth : Q) :
  let s2 := fst (toggle_stealth (fst (toggle_lights self c t_lights))
                                c t_stealth) in
  quit s2 = quit self /\
  video_enabled s2 = video_enabled self /\
  pcm_file s2 = pcm_file self.
Proof.
  cbv zeta.
  destruct (toggle_lights_fields self c t_lights) as (Hq & _ & Hv & Hp).
  destruct (toggle_stealth_fields (fst (toggle_lights self c t_lights))
                                  c t_stealth)
    as (Hq' & _ & Hv' & Hp').
  cbv zeta in *. rewrite Hq', Hv', Hp', Hq, Hv, Hp. auto.
Qed.

(** The display block when there is nothing to show. *)
Lemma display_video_dropped (cv2 : option Cv2) (self : PS3Rover) (io : Tick)
    (jpegbytes : list Byte.byte) :
  video_enabled self = false \/ cv2 = None \/
  (exists cv, cv2 = Some cv /\ decode_fails (imdecode cv jpegbytes) = true) ->
  display_video cv2 self io jpegbytes = (self, [], Returned).
Proof.
  unfold display_video.
  intros [Hoff | [Hnone | (cv & Hcv & Hfail)]].
  - rewrite Hoff. reflexivity.
  - rewrite Hnone. destruct (video_enabled self); reflexivity.
  - rewrite Hcv. destruct (video_enabled self); [ | reflexivity].
    destruct (imdecode cv jpegbytes) as [image | | e];
      [discriminate | reflexivity | ].
    destruct e; try discriminate; reflexivity.
Qed.

(** C6. When the frame does not decode (the decoder returns [None] or
    raises its error, as it does for an empty payload), or when there is
    no display surface (the window was not created, or OpenCV is
    absent), [processVideo] returns without an exception, leaves [quit]
    as it was and shows nothing. *)
Theorem processVideo_drops_bad_frame (cv2 : option Cv2) (self : PS3Rover)
    (io : Tick) (jpegbytes : list Byte.byte)
    (Hdrop : video_enabled self = false \/ cv2 = None \/
             (exists cv, cv2 = Some cv /\
                         decode_fails (imdecode cv jpegbytes) = true)) :
  let '(self', ev, o) := processVideo cv2 self io jpegbytes in
  o = Returned /\
  quit self' = quit self /\
  List.filter is_display ev = [].
Proof.
  rewrite processVideo_steps. cbv zeta.
  destruct (before_display_fields self (controller io)
              (time_lights io) (time_stealth io)) as (Hq & Hv & _).
  cbv zeta in Hq, Hv.
  set (s1 := fst (toggle_lights self (controller io) (time_lights io))) in *.
  set (s2 := fst (toggle_stealth s1 (controller io) (time_stealth io))) in *.
  rewrite (display_video_dropped cv2 s2 io jpegbytes)
    by (rewrite Hv; exact Hdrop).
  cbn [fst snd].
  repeat apply conj; [reflexivity | exact Hq | ].
  rewrite !List.filter_app.
  destruct (toggle_lights_events self (controller io) (time_lights io))
    as [-> | [-> | ->]];
    destruct (toggle_stealth_events s1 (controller io) (time_stealth io))
      as [-> | [-> | ->]];
    unfold move_camera;
    destruct (get_button (controller io) BUTTON_CAMERA_UP);
    destruct (get_button (controller io) BUTTON_CAMERA_DOWN);
    reflexivity.
Qed.

Lemma processVideo_drops_bad_frame_witness :
  let cv := {| imdecode := fun b =>
                 match b with
                 | [] => DecodeRaises Cv2Error
                 | _ => DecodeNone
                 end |} in
  let self := {| quit := false; lights_are_on := false;
                 stealth_is_on := false; last_button_time := 0;
                 video_enabled := true; pcm_file := None |} in
  let io := {| controller := {| get_button := fun _ => false;
                                get_axis := fun _ => 0 |};
               time_lights := 1; time_stealth := 1;
               imshow_raises := None; waitKey := 27%Z |} in
  snd (processVideo (Some cv) self io []) = Returned /\
  quit (fst (fst (processVideo (Some cv) self io []))) = false.
Proof.
  intros cv self io.
  pose proof (processVideo_drops_bad_frame (Some cv) self io []) as H.
  destruct (processVideo (Some cv) self io []) as [[self' ev] o].
  destruct H as (Ho & Hq & _).
  - right. right. exists cv. split; reflexivity.
  - split; [exact Ho | exact Hq].
Defined.

(** ** The run-state flag *)

Lemma display_video_quit (cv2 : option Cv2) (self : PS3Rover) (io : Tick)
    (jpegbytes : list Byte.byte) :
  quit (fst (fst (display_video cv2 self io jpegbytes))) =
  quit self || escape_seen cv2 (video_enabled self) io jpegbytes.
Proof.
  unfold display_video, escape_seen.
  destruct (video_enabled self), cv2 as [cv|];
    try (simpl; rewrite orb_false_r; reflexivity).
  destruct (imdecode cv jpegbytes);
    try (simpl; rewrite orb_false_r; reflexivity).
  destruct (imshow_raises io);
    try (simpl; rewrite orb_false_r; reflexivity).
  destruct (Z.land (waitKey io) 255 =? 27)%Z; simpl.
  - rewrite orb_true_r. reflexivity.
  - rewrite orb_false_r. reflexivity.
Qed.

Lemma processVideo_quit (cv2 : option Cv2) (self : PS3Rover) (io : Tick)
    (jpegbytes : list Byte.byte) :
  quit (fst (fst (processVideo cv2 self io jpegbytes))) =
  quit self || escape_seen cv2 (video_enabled self) io jpegbytes.
Proof.
  rewrite processVideo_steps. cbv zeta.
  change (fst (fst (?a, ?b, ?c))) with a. cbv beta.
  rewrite display_video_quit.
  destruct (before_display_fields self (controller io)
              (time_lights io) (time_stealth io)) as (Hq & Hv & _).
  cbv zeta in Hq, Hv. rewrite Hq, Hv. reflexivity.
Qed.


Lemma processAudio_fields (self : PS3Rover) (pcmsamples : list Z) :
  let self' := fst (processAudio self pcmsamples) in
  quit self' = quit self /\
  lights_are_on self' = lights_are_on self /\
  stealth_is_on self' = stealth_is_on self /\
  last_button_time self' = last_button_time self /\
  video_enabled self' = video_enabled self.
Proof.
  unfold processAudio.
  destruct (pcm_file self) as [f|]; simpl; auto.
  destruct (write_samples f pcmsamples) as [f' o]; simpl; auto.
Qed.

Lemma cleanup_fields (cv2 : option Cv2) (self : PS3Rover) :
  let self' := fst (cleanup cv2 self) in
  quit self' = quit self /\
  video_enabled self' = video_enabled self.
Proof.
  unfold cleanup.
  destruct (pcm_file self) as [f|]; simpl; auto.
Qed.

Lemma signal_handler_fields (cv2 : option Cv2)
    (f_globals : gmap string pyobj) (self : PS3Rover) :
  let self' := fst (fst (_signal_handler cv2 f_globals self)) in
  quit self' = quit self /\
  video_enabled self' = video_enabled self.
Proof.
  unfold _signal_handler.
  destruct (f_globals !! "rover"%string) as [[ | q | | | | ]|]; simpl; auto.
  - destruct (Qeq_bool q 0); simpl; auto.
  - pose proof (cleanup_fields cv2 self) as H.
    destruct (cleanup cv2 self) as [s ev]. simpl in *. exact H.
Qed.

Lemma perform_quit (cv2 : option Cv2) (op : operation) (self : PS3Rover) :
  quit (perform cv2 op self) =
  quit self ||
  match op with
  | OpProcessVideo io jpegbytes =>
      escape_seen cv2 (video_enabled self) io jpegbytes
  | _ => false
  end.
Proof.
  destruct op as [io jpegbytes | pcmsamples | | | f_globals]; simpl.
  - apply processVideo_quit.
  - rewrite orb_false_r. apply (processAudio_fields self pcmsamples).
  - rewrite orb_false_r. apply (cleanup_fields cv2 self).
  - rewrite orb_false_r. apply (cleanup_fields cv2 self).
  - rewrite orb_false_r. apply (signal_handler_fields cv2 f_globals self).
Qed.

(** The idle loop returns normally only once [quit] is true. *)
Lemma idle_loop_returns_on_quit (cv2 : option Cv2)
    (arrivals : list arrival) :
  forall (self self' : PS3Rover) (ev : list event),
    idle_loop cv2 self arrivals = Some (self', ev, Returned) ->
    quit self' = true.
Proof.
  induction arrivals as [|a rest IH]; intros self self' ev Hrun; simpl in Hrun.
  - destruct (quit self) eqn:Hq; [ | discriminate].
    injection Hrun as <- _. exact Hq.
  - destruct (quit self) eqn:Hq.
    + injection Hrun as <- _. exact Hq.
    + destruct a as [ | io jpegbytes | pcmsamples | ].
      * eapply IH; eauto.
      * destruct (processVideo cv2 self io jpegbytes) as [[s1 e1] o1].
        destruct (idle_loop cv2 s1 rest) as [[[s2 e2] o2]|] eqn:Hrest;
          [ | discriminate].
        injection Hrun as <- _ ->. eapply IH; eauto.
      * destruct (processAudio self pcmsamples) as [s1 o1].
        eapply IH; eauto.
      * destruct (_signal_handler cv2 (module_globals cv2) self)
          as [[s1 e1] x].
        discriminate.
Qed.

Lemma idle_loop_idles (cv2 : option Cv2) (self : PS3Rover) (n : nat) :
  quit self = false ->
  idle_loop cv2 self (List.repeat Idle n) = None.
Proof.
  intro Hq. induction n as [|n IH]; simpl; rewrite Hq; [reflexivity | exact IH].
Qed.

(** C9. [quit] is false on the constructed object; no operation on the
    object takes it from true to false; an operation takes it from false
    to true only if it is a [processVideo] call on whose frame the ESC
    key is seen; and while it is false the idle loop goes on: it has not
    ended after any number of sleeps, and when it does end by its test,
    [quit] is true. *)
Theorem quit_is_monotone (cv2 : option Cv2) :
  (forall (st : Startup) (self : PS3Rover),
      __init__ cv2 st = Ok self -> quit self = false) /\
  (forall (op : operation) (self : PS3Rover),
      quit self = true -> quit (perform cv2 op self) = true) /\
  (forall (op : operation) (self : PS3Rover),
      quit self = false -> quit (perform cv2 op self) = true ->
      exists io jpegbytes,
        op = OpProcessVideo io jpegbytes /\
        escape_seen cv2 (video_enabled self) io jpegbytes = true) /\
  (forall (self : PS3Rover) (n : nat),
      quit self = false ->
      idle_loop cv2 self (List.repeat Idle n) = None) /\
  (forall (self self' : PS3Rover) (arrivals : list arrival)
          (ev : list event),
      idle_loop cv2 self arrivals = Some (self', ev, Returned) ->
      quit self' = true).
Proof.
  repeat apply conj.
  - intros st self. unfold __init__.
    destruct (super_init st); [discriminate | ].
    destruct (joystick_count st); [discriminate | ].
    intros [= <-]. reflexivity.
  - intros op self Hq. rewrite perform_quit, Hq. reflexivity.
  - intros op self Hq Hq'. rewrite perform_quit, Hq in Hq'. simpl in Hq'.
    destruct op as [io jpegbytes | | | | ]; try discriminate.
    exists io, jpegbytes. split; [reflexivity | exact Hq'].
  - intros self n Hq. apply idle_loop_idles. exact Hq.
  - intros self self' arrivals ev. apply idle_loop_returns_on_quit.
Qed.

Lemma quit_is_monotone_witness :
  let st := {| super_init := None; joystick_count := 1;
               namedWindow_ok := true; open_ok := true;
               disk_room := None; get_name := None |} in
  let self := {| quit := true; lights_are_on := false;
                 stealth_is_on := false; last_button_time := 0;
                 video_enabled := false; pcm_file := None |} in
  (exists self0, __init__ None st = Ok self0 /\ quit self0 = false) /\
  quit (perform None OpCleanup self) = true.
Proof.
  intros st self.
  destruct (quit_is_monotone None) as (Hinit & Hmono & _).
  split.
  - eexists. split; [reflexivity | ].
    apply (Hinit st). reflexivity.
  - apply Hmono. reflexivity.
Defined.

(** ** A button held over several calls *)

(** Calls that all fall within the debounce interval of the stored time
    change nothing. *)
Lemma check_button_calls_suppressed (button_id : Z)
    (on_routine off_routine : option event)
    (calls : list (Controller * Q)) :
  forall (self : PS3Rover) (flag : bool),
    Forall (fun call => snd call - last_button_time self
                        <= MIN_BUTTON_LAG_SEC) calls ->
    check_button_calls self flag button_id on_routine off_routine calls =
      (self, flag, [], O).
Proof.
  induction calls as [|[c now] rest IH]; intros self flag Hall.
  - reflexivity.
  - inversion Hall as [|x l Hnow Hrest]; subst. simpl in Hnow. simpl.
    destruct (check_button_cases self c now flag button_id
                on_routine off_routine)
      as [(_ & Hgt & _) | (_ & ->)]; [lra | ].
    rewrite (IH self flag Hrest). rewrite Bool.eqb_reflx. reflexivity.
Qed.

Lemma call_routine_length (routine : option event) :
  (List.length (call_routine routine) <= 1)%nat.
Proof. destruct routine; simpl; lia. Qed.

(** C3, as stated, fails: from the freshly constructed rover, three calls
    with the lights button held at times 1, 7/5 and 9/5, each 2/5 after
    the one before, flip the flag twice and call two routines. *)
Lemma held_button_flips_twice :
  let c := {| get_button := fun _ => true; get_axis := fun _ => 0 |} in
  let self := {| quit := false; lights_are_on := false;
                 stealth_is_on := false; last_button_time := 0;
                 video_enabled := false; pcm_file := None |} in
  let calls := [(c, 1); (c, 7 # 5); (c, 9 # 5)] in
  Forall (fun call => get_button (fst call) BUTTON_LIGHTS = true) calls /\
  closely_spaced MIN_BUTTON_LAG_SEC calls /\
  check_button_calls self false BUTTON_LIGHTS
                     (Some TurnLightsOn) (Some TurnLightsOff) calls
  = (set_last_button_time self (9 # 5), false,
     [TurnLightsOn; TurnLightsOff], 2%nat).
Proof.
  cbv zeta. split; [ | split].
  - repeat constructor.
  - simpl. repeat split; vm_compute; congruence.
  - reflexivity.
Qed.

(** C3, amended.  Over consecutive [_check_button] calls on one control
    that all fall within one debounce interval (no call is more than
    [MIN_BUTTON_LAG_SEC] after an earlier one), whether or not the button
    is held throughout, the flag flips at most once in total and at most
    one routine is called in total. *)
Theorem held_button_flips_once (self : PS3Rover) (flag : bool)
    (button_id : Z) (on_routine off_routine : option event)
    (calls : list (Controller * Q))
    (Hwindow : within_one_interval MIN_BUTTON_LAG_SEC calls) :
  let '(_, _, ev, flips) :=
    check_button_calls self flag button_id on_routine off_routine calls in
  (flips <= 1)%nat /\ (List.length ev <= 1)%nat.
Proof.
  revert self flag.
  induction Hwindow as [|[c now] rest Hnow Hrest IH]; intros self flag.
  - simpl. split; lia.
  - simpl.
    destruct (check_button_cases self c now flag button_id
                on_routine off_routine)
      as [(_ & _ & ->) | (_ & ->)].
    + rewrite (check_button_calls_suppressed button_id on_routine off_routine
                 rest (set_last_button_time self now) (negb flag)).
      * split.
        -- destruct flag; simpl; lia.
        -- rewrite List.app_nil_r. apply call_routine_length.
      * simpl. exact Hnow.
    + specialize (IH self flag).
      destruct (check_button_calls self flag button_id on_routine
                  off_routine rest) as [[[s2 f2] ev2] n2].
      rewrite Bool.eqb_reflx. simpl. exact IH.
Qed.

Lemma held_button_flips_once_witness :
  let c := {| get_button := fun _ => true; get_axis := fun _ => 0 |} in
  let self := {| quit := false; lights_are_on := false;
                 stealth_is_on := false; last_button_time := 0;
                 video_enabled := false; pcm_file := None |} in
  let calls := [(c, 1); (c, 6 # 5); (c, 7 # 5)] in
  let '(_, _, ev, flips) :=
    check_button_calls self false BUTTON_LIGHTS
                       (Some TurnLightsOn) (Some TurnLightsOff) calls in
  (flips <= 1)%nat /\ (List.length ev <= 1)%nat.
Proof.
  intros c self calls.
  apply (held_button_flips_once self false BUTTON_LIGHTS
           (Some TurnLightsOn) (Some TurnLightsOff) calls).
  unfold within_one_interval, calls.
  repeat constructor; vm_compute; discriminate.
Defined.

(** ** Audio capture *)

Lemma append_assoc (a b c : string) :
  String.append (String.append a b) c = String.append a (String.append b c).
Proof.
  induction a as [|ch a IH]; [reflexivity | ].
  change (String ch (String.append (String.append a b) c) =
          String ch (String.append a (String.append b c))).
  rewrite IH. reflexivity.
Qed.

Lemma append_empty_r (a : string) : String.append a EmptyString = a.
Proof.
  induction a as [|ch a IH]; [reflexivity | ].
  change (String ch (String.append a EmptyString) = String ch a).
  rewrite IH. reflexivity.
Qed.

(** The write loop on an open file: the samples the device accepts are
    appended in order, and the loop ends with [IOError] exactly when a
    sample is left over. *)
Lemma write_samples_open (pcmsamples : list Z) :
  forall f : PcmFile,
    closed f = false ->
    let k := accepted (room f) (List.length pcmsamples) in
    let '(f', o) := write_samples f pcmsamples in
    written f' =
      String.append (written f) (batch_text (List.firstn k pcmsamples)) /\
    closed f' = false /\
    o = (if Nat.ltb k (List.length pcmsamples)
         then Raised IOError else Returned).
Proof.
  induction pcmsamples as [|samp rest IH]; intros f Hopen; cbv zeta.
  - cbn [write_samples List.length]. rewrite List.firstn_nil.
    cbn [batch_text]. rewrite append_empty_r.
    replace (accepted (room f) 0) with O
      by (destruct (room f); simpl; [rewrite Nat.min_0_r | ]; reflexivity).
    auto.
  - cbn [write_samples]. unfold pcm_write. rewrite Hopen.
    destruct (room f) as [[|r]|] eqn:Hroom.
    + cbn [accepted List.length Nat.min List.firstn batch_text].
      rewrite append_empty_r. auto.
    + match goal with
      | |- context [write_samples ?g rest] =>
          specialize (IH g eq_refl); cbv zeta in IH;
          destruct (write_samples g rest) as [f' o]
      end.
      cbn [written closed room accepted] in IH.
      destruct IH as (Hw & Hc & Ho).
      cbn [accepted List.length Nat.min List.firstn batch_text].
      rewrite Hw, append_assoc. auto.
    + match goal with
      | |- context [write_samples ?g rest] =>
          specialize (IH g eq_refl); cbv zeta in IH;
          destruct (write_samples g rest) as [f' o]
      end.
      cbn [written closed room accepted] in IH.
      destruct IH as (Hw & Hc & Ho).
      cbn [accepted List.length List.firstn batch_text].
      rewrite Hw, append_assoc. auto.
Qed.

(** C7.  No exception is to surface from [processAudio] when a write
    fails (line 111: continue if the file write fails); the code misses
    the write on a closed file.  A rover is started with its capture file open, records the
    batch [1,2], and is cleaned up, as the [finally] block of [main] does
    before it closes the connection; the next batch [3] then ends
    [processAudio] with [ValueError], which [except IOError] does not
    take.  The two lines written before stay. *)
Lemma processAudio_raises_on_closed_file :
  let st := {| super_init := None; joystick_count := 1;
               namedWindow_ok := false; open_ok := true;
               disk_room := None; get_name := None |} in
  exists self : PS3Rover,
    __init__ None st = Ok self /\
    let recorded := fst (processAudio self [1; 2]%Z) in
    let cleaned := fst (cleanup None recorded) in
    snd (processAudio recorded [1; 2]%Z) = Returned /\
    processAudio cleaned [3]%Z = (cleaned, Raised ValueError) /\
    option_map (fun f => lines (written f)) (pcm_file cleaned) =
      Some ["1"; "2"]%string.
Proof.
  eexists. split; [reflexivity | ].
  vm_compute. repeat apply conj; reflexivity.
Qed.

(** X19. On a capture file that is open (not yet closed by [cleanup])
    [processAudio] returns without an exception and appends to the file, in batch order and one line each,
    the samples written before the first failing write: all of them when
    no write fails, and what is written stays.  Without a capture file
    (the open failed at startup) it returns without an exception and
    changes nothing.  From a started rover whose file opened on a device
    that takes every write, the batches [1,2,3] and [4,5] leave the five
    lines 1, 2, 3, 4, 5 in that order. *)
Theorem processAudio_appends :
  (forall (self : PS3Rover) (f : PcmFile) (pcmsamples : list Z),
      pcm_file self = Some f -> closed f = false ->
      exists f',
        processAudio self pcmsamples = (set_pcm_file self (Some f'), Returned)
        /\ written f' =
             String.append (written f)
               (batch_text
                  (List.firstn (accepted (room f) (List.length pcmsamples))
                               pcmsamples))
        /\ (room f = None ->
            written f' = String.append (written f) (batch_text pcmsamples))
        /\ closed f' = false) /\
  (forall (self : PS3Rover) (pcmsamples : list Z),
      pcm_file self = None ->
      processAudio self pcmsamples = (self, Returned)) /\
  (forall (cv2 : option Cv2) (st : Startup) (self : PS3Rover),
      __init__ cv2 st = Ok self ->
      open_ok st = true -> disk_room st = None ->
      let s1 := fst (processAudio self [1; 2; 3]%Z) in
      let s2 := fst (processAudio s1 [4; 5]%Z) in
      exists f,
        pcm_file s2 = Some f /\
        lines (written f) =
          ["1"; "2"; "3"; "4"; "5"]%string).
Proof.
  repeat apply conj.
  - intros self f pcmsamples Hfile Hopen.
    unfold processAudio. rewrite Hfile.
    pose proof (write_samples_open pcmsamples f Hopen) as H.
    cbv zeta in H.
    destruct (write_samples f pcmsamples) as [f' o].
    destruct H as (Hw & Hc & Ho).
    exists f'. repeat apply conj.
    + rewrite Ho.
      destruct (accepted (room f) (List.length pcmsamples)
                <? List.length pcmsamples)%nat; reflexivity.
    + exact Hw.
    + intros Hroom. rewrite Hw, Hroom. simpl.
      rewrite List.firstn_all. reflexivity.
    + exact Hc.
  - intros self pcmsamples Hnone. unfold processAudio.
    rewrite Hnone. reflexivity.
  - intros cv2 st self Hinit Hopen Hroom. cbv zeta.
    unfold __init__ in Hinit.
    destruct (super_init st); [discriminate | ].
    destruct (joystick_count st); [discriminate | ].
    rewrite Hopen, Hroom in Hinit. injection Hinit as <-.
    eexists. split; reflexivity.
Qed.

Lemma processAudio_appends_witness :
  let f := {| written := EmptyString; closed := false; room := Some 2%nat |} in
  let self := {| quit := false; lights_are_on := false;
                 stealth_is_on := false; last_button_time := 0;
                 video_enabled := false; pcm_file := Some f |} in
  exists f',
    processAudio self [7; -8; 9]%Z = (set_pcm_file self (Some f'), Returned)
    /\ lines (written f') = ["7"; "-8"]%string.
Proof.
  intros f self.
  destruct processAudio_appends as (Hopen & _ & _).
  destruct (Hopen self f [7; -8; 9]%Z eq_refl eq_refl)
    as (f' & Hrun & Hw & _ & _).
  exists f'. split; [exact Hrun | ].
  rewrite Hw. reflexivity.
Defined.

(** ** Shutdown *)

Lemma module_globals_no_rover (cv2 : option Cv2) :
  module_globals cv2 !! "rover"%string = None.
Proof. destruct cv2; vm_compute; reflexivity. Qed.

(** In this module the handler finds no [rover] and only raises
    [SystemExit(0)]. *)
Lemma signal_handler_in_module (cv2 : option Cv2) (self : PS3Rover) :
  _signal_handler cv2 (module_globals cv2) self = (self, [], SystemExit 0).
Proof.
  unfold _signal_handler. rewrite module_globals_no_rover. reflexivity.
Qed.





Lemma idle_loop_quit (cv2 : option Cv2) (self : PS3Rover)
    (arrivals : list arrival) :
  quit self = true ->
  idle_loop cv2 self arrivals = Some (self, [], Returned).
Proof.
  intro Hq. destruct arrivals; simpl; rewrite Hq; reflexivity.
Qed.





(** * Further properties of the program *)

(** ** The commands of one frame *)

(** Rewrites the trace of a [processVideo] call into the traces of its
    statements and names the two intermediate objects. *)
Ltac frame_statements s1 s2 :=
  cbv zeta; rewrite processVideo_steps; cbv zeta;
  try change (snd (fst (?a, ?b, ?c))) with b;
  try change (fst (fst (?a, ?b, ?c))) with a;
  try change (snd (?a, ?b, ?c)) with c;
  cbv beta;
  match goal with
  | |- context [toggle_stealth (fst (toggle_lights ?self ?c ?t)) _ _] =>
      set (s1 := fst (toggle_lights self c t)) in *
  end;
  match goal with
  | |- context [display_video _ (fst (toggle_stealth s1 ?c ?t)) _ _] =>
      set (s2 := fst (toggle_stealth s1 c t)) in *
  end.

Lemma get_axis_value_range (c : Controller) (index : Z) :
  (-1 <= _get_axis_value c index <= 1)%Z.
Proof.
  unfold _get_axis_value.
  destruct (Qgtb _ _); [lia | ].
  destruct (Qltb _ _); lia.
Qed.

(** X1. Every call of [processVideo] sends exactly one [setTreads]
    command: the left tread from axis 1 and the right tread from axis 3,
    each of them -1, 0 or 1. *)
Theorem treads_command_per_frame (cv2 : option Cv2) (self : PS3Rover)
    (io : Tick) (jpegbytes : list Byte.byte) :
  let c := controller io in
  let ev := snd (fst (processVideo cv2 self io jpegbytes)) in
  List.filter is_treads ev =
    [SetTreads (_get_axis_value c 1) (_get_axis_value c 3)] /\
  (-1 <= _get_axis_value c 1 <= 1)%Z /\
  (-1 <= _get_axis_value c 3 <= 1)%Z.
Proof.
  split; [ | split; apply get_axis_value_range].
  frame_statements s1 s2.
  rewrite !List.filter_app.
  destruct (toggle_lights_events self (controller io) (time_lights io))
    as [-> | [-> | ->]];
    destruct (toggle_stealth_events s1 (controller io) (time_stealth io))
      as [-> | [-> | ->]];
    destruct (display_video_events cv2 s2 io jpegbytes)
      as [-> | [image ->]];
    unfold move_camera;
    destruct (get_button (controller io) BUTTON_CAMERA_UP);
    destruct (get_button (controller io) BUTTON_CAMERA_DOWN);
    reflexivity.
Qed.

(** What a toggle statement does is fixed by the flag it reads and the
    stored time. *)
Lemma toggle_lights_control (self self' : PS3Rover) (c : Controller)
    (now : Q) :
  lights_are_on self = lights_are_on self' ->
  last_button_time self = last_button_time self' ->
  snd (toggle_lights self c now) = snd (toggle_lights self' c now) /\
  lights_are_on (fst (toggle_lights self c now)) =
    lights_are_on (fst (toggle_lights self' c now)) /\
  last_button_time (fst (toggle_lights self c now)) =
    last_button_time (fst (toggle_lights self' c now)).
Proof.
  intros Hl Ht.
  destruct (toggle_lights_cases self c now)
    as [(Hh & Hg & ->) | ([Hh | Hg] & ->)];
    destruct (toggle_lights_cases self' c now)
      as [(Hh' & Hg' & ->) | ([Hh' | Hg'] & ->)];
    simpl; rewrite ?Hl; auto;
    try congruence; rewrite Ht in *; lra.
Qed.

Lemma toggle_stealth_control (self self' : PS3Rover) (c : Controller)
    (now : Q) :
  stealth_is_on self = stealth_is_on self' ->
  last_button_time self = last_button_time self' ->
  snd (toggle_stealth self c now) = snd (toggle_stealth self' c now) /\
  stealth_is_on (fst (toggle_stealth self c now)) =
    stealth_is_on (fst (toggle_stealth self' c now)) /\
  last_button_time (fst (toggle_stealth self c now)) =
    last_button_time (fst (toggle_stealth self' c now)).
Proof.
  intros Hl Ht.
  destruct (toggle_stealth_cases self c now)
    as [(Hh & Hg & ->) | ([Hh | Hg] & ->)];
    destruct (toggle_stealth_cases self' c now)
      as [(Hh' & Hg' & ->) | ([Hh' | Hg'] & ->)];
    simpl; rewrite ?Hl; auto;
    try congruence; rewrite Ht in *; lra.
Qed.

Lemma filter_vehicle_display (cv2 : option Cv2) (self : PS3Rover)
    (io : Tick) (jpegbytes : list Byte.byte) :
  List.filter is_vehicle (snd (fst (display_video cv2 self io jpegbytes)))
  = [].
Proof.
  destruct (display_video_events cv2 self io jpegbytes)
    as [-> | [image ->]]; reflexivity.
Qed.

Lemma filter_vehicle_controls (self : PS3Rover) (c : Controller)
    (t_lights t_stealth : Q) :
  let s1 := fst (toggle_lights self c t_lights) in
  let ev := snd (toggle_lights self c t_lights) ++
            snd (toggle_stealth s1 c t_stealth) ++
            move_camera c ++ set_treads c in
  List.filter is_vehicle ev = ev.
Proof.
  cbv zeta.
  destruct (toggle_lights_events self c t_lights) as [-> | [-> | ->]];
    destruct (toggle_stealth_events (fst (toggle_lights self c t_lights))
                                    c t_stealth) as [-> | [-> | ->]];
    unfold move_camera;
    destruct (get_button c BUTTON_CAMERA_UP);
    destruct (get_button c BUTTON_CAMERA_DOWN);
    reflexivity.
Qed.

(** X2. The control side of [processVideo] does not depend on the video
    side: two calls that meet the same controller and clock readings, on
    objects with the same two flags and stored time, send the same
    vehicle commands and leave the same flags and stored time, whatever
    OpenCV module, frame bytes, window state, pressed key and capture
    file each of them has. *)
Theorem control_ignores_video (cv2 cv2' : option Cv2)
    (self self' : PS3Rover) (io io' : Tick)
    (jpegbytes jpegbytes' : list Byte.byte)
    (Hc : controller io = controller io')
    (Htl : time_lights io = time_lights io')
    (Hts : time_stealth io = time_stealth io')
    (Hl : lights_are_on self = lights_are_on self')
    (Hs : stealth_is_on self = stealth_is_on self')
    (Ht : last_button_time self = last_button_time self') :
  let r := processVideo cv2 self io jpegbytes in
  let r' := processVideo cv2' self' io' jpegbytes' in
  List.filter is_vehicle (snd (fst r)) =
    List.filter is_vehicle (snd (fst r')) /\
  lights_are_on (fst (fst r)) = lights_are_on (fst (fst r')) /\
  stealth_is_on (fst (fst r)) = stealth_is_on (fst (fst r')) /\
  last_button_time (fst (fst r)) = last_button_time (fst (fst r')).
Proof.
  cbv zeta. rewrite !processVideo_steps. cbv zeta.
  change (snd (fst (?a, ?b, ?c))) with b.
  change (fst (fst (?a, ?b, ?c))) with a. cbv beta.
  rewrite <- Hc, <- Htl, <- Hts.
  set (c := controller io).
  destruct (toggle_lights_control self self' c (time_lights io) Hl Ht)
    as (He1 & Hl1 & Ht1).
  destruct (toggle_lights_fields self c (time_lights io))
    as (_ & Hs1 & _ & _).
  destruct (toggle_lights_fields self' c (time_lights io))
    as (_ & Hs1' & _ & _).
  cbv zeta in Hs1, Hs1'.
  set (s1 := fst (toggle_lights self c (time_lights io))) in *.
  set (s1' := fst (toggle_lights self' c (time_lights io))) in *.
  assert (Hs11 : stealth_is_on s1 = stealth_is_on s1') by congruence.
  destruct (toggle_stealth_control s1 s1' c (time_stealth io) Hs11 Ht1)
    as (He2 & Hs2 & Ht2).
  destruct (toggle_stealth_fields s1 c (time_stealth io))
    as (_ & Hl2 & _ & _).
  destruct (toggle_stealth_fields s1' c (time_stealth io))
    as (_ & Hl2' & _ & _).
  cbv zeta in Hl2, Hl2'.
  set (s2 := fst (toggle_stealth s1 c (time_stealth io))) in *.
  set (s2' := fst (toggle_stealth s1' c (time_stealth io))) in *.
  destruct (display_video_fields cv2 s2 io jpegbytes)
    as (Hdl & Hds & Hdt & _ & _).
  destruct (display_video_fields cv2' s2' io' jpegbytes')
    as (Hdl' & Hds' & Hdt' & _ & _).
  cbv zeta in Hdl, Hds, Hdt, Hdl', Hds', Hdt'.
  rewrite Hdl, Hds, Hdt, Hdl', Hds', Hdt'.
  repeat apply conj; try congruence.
  rewrite !List.app_assoc, !List.filter_app, !filter_vehicle_display.
  rewrite <- !List.filter_app, <- !List.app_assoc.
  rewrite He1, He2. reflexivity.
Qed.

Lemma control_ignores_video_witness :
  let c := {| get_button := fun _ => true; get_axis := fun _ => 1 |} in
  let self := {| quit := false; lights_are_on := false;
                 stealth_is_on := true; last_button_time := 0;
                 video_enabled := false; pcm_file := None |} in
  let self' := {| quit := false; lights_are_on := false;
                  stealth_is_on := true; last_button_time := 0;
                  video_enabled := true; pcm_file := None |} in
  let io := {| controller := c; time_lights := 1; time_stealth := 2;
               imshow_raises := None; waitKey := (-1)%Z |} in
  let io' := {| controller := c; time_lights := 1; time_stealth := 2;
                imshow_raises := None; waitKey := 27%Z |} in
  let cv := {| imdecode := fun b => Decoded b |} in
  List.filter is_vehicle (snd (fst (processVideo None self io []))) =
  List.filter is_vehicle
    (snd (fst (processVideo (Some cv) self' io' [Byte.x01]))).
Proof.
  intros c self self' io io' cv.
  apply (control_ignores_video None (Some cv) self self' io io'
           [] [Byte.x01]); reflexivity.
Defined.

(** ** More on debouncing *)

(** X3. The routines passed to [_check_button] have no influence on the
    returned flag or on the object: with or without them the flag flips
    exactly when the button is held and more than [MIN_BUTTON_LAG_SEC]
    has passed since the stored time, and the time is then stored; when
    both routines are left out ([None]) the flag still flips and nothing
    is called. *)
Theorem check_button_without_routines (self : PS3Rover) (c : Controller)
    (now : Q) (flag : bool) (button_id : Z)
    (on_routine off_routine : option event) :
  let r := _check_button self c now flag button_id on_routine off_routine in
  let r0 := _check_button self c now flag button_id None None in
  fst r = fst r0 /\
  snd r0 = [] /\
  (snd (fst r) = negb flag <->
   get_button c button_id = true /\
   MIN_BUTTON_LAG_SEC < now - last_button_time self) /\
  (snd (fst r) = negb flag -> last_button_time (fst (fst r)) = now) /\
  (snd (fst r) = flag -> fst (fst r) = self).
Proof.
  cbv zeta.
  destruct (check_button_cases self c now flag button_id
              on_routine off_routine)
    as [(Hh & Hg & ->) | (Hidle & ->)];
    destruct (check_button_cases self c now flag button_id None None)
      as [(Hh' & Hg' & ->) | (Hidle' & ->)]; simpl.
  - split; [reflexivity | ].
    split; [destruct flag; reflexivity | ].
    split; [split; auto | ].
    split; [reflexivity | ].
    intros Hsame. destruct flag; discriminate.
  - exfalso. destruct Hidle' as [Hno | Hno]; [congruence | lra].
  - exfalso. destruct Hidle as [Hno | Hno]; [congruence | lra].
  - split; [reflexivity | ].
    split; [reflexivity | ].
    split; [split | ].
    + intros Hflip. destruct flag; discriminate.
    + intros [Hh Hg]. exfalso.
      destruct Hidle as [Hno | Hno]; [congruence | lra].
    + split; [ | reflexivity].
      intros Hflip. destruct flag; discriminate.
Qed.

Lemma check_button_without_routines_witness :
  let c := {| get_button := fun _ => true; get_axis := fun _ => 0 |} in
  let self := {| quit := false; lights_are_on := false;
                 stealth_is_on := false; last_button_time := 0;
                 video_enabled := false; pcm_file := None |} in
  snd (fst (_check_button self c 1 true BUTTON_STEALTH None None)) = false.
Proof.
  intros c self.
  destruct (check_button_without_routines self c 1 true BUTTON_STEALTH
              None None) as (_ & _ & [_ H] & _).
  apply H. split; [reflexivity | vm_compute; reflexivity].
Defined.

Lemma lag_positive : 0 < MIN_BUTTON_LAG_SEC.
Proof. reflexivity. Qed.

(** X4. A call of [processVideo] moves the stored debounce time only when
    it flips a flag: if neither flag changes the stored time is
    unchanged, and if one changes the new stored time is the clock
    reading of a check of this call and lies more than
    [MIN_BUTTON_LAG_SEC] after the old one.  So accepted presses, of
    either control, are always more than the debounce interval apart. *)
Theorem stamp_moves_only_on_flip (cv2 : option Cv2) (self : PS3Rover)
    (io : Tick) (jpegbytes : list Byte.byte) :
  let self' := fst (fst (processVideo cv2 self io jpegbytes)) in
  (lights_are_on self' = lights_are_on self /\
   stealth_is_on self' = stealth_is_on self ->
   last_button_time self' = last_button_time self) /\
  (lights_are_on self' <> lights_are_on self \/
   stealth_is_on self' <> stealth_is_on self ->
   MIN_BUTTON_LAG_SEC < last_button_time self' - last_button_time self /\
   (last_button_time self' = time_lights io \/
    last_button_time self' = time_stealth io)).
Proof.
  pose proof lag_positive as Hlag.
  frame_statements s1 s2.
  destruct (display_video_fields cv2 s2 io jpegbytes)
    as (Hdl & Hds & Hdt & _ & _).
  cbv zeta in Hdl, Hds, Hdt. rewrite Hdl, Hds, Hdt. clear Hdl Hds Hdt.
  unfold s2, s1.
  destruct (toggle_lights_cases self (controller io) (time_lights io))
    as [(_ & Hg1 & ->) | (_ & ->)]; cbn [fst];
    match goal with
    | |- context [toggle_stealth ?s _ _] =>
        destruct (toggle_stealth_cases s (controller io) (time_stealth io))
          as [(_ & Hg2 & ->) | (_ & ->)]
    end; cbn [fst]; simpl in *.
  - split.
    + intros [H _]. destruct (lights_are_on self); discriminate.
    + intros _. split; [lra | auto].
  - split.
    + intros [H _]. destruct (lights_are_on self); discriminate.
    + intros _. split; [lra | auto].
  - split.
    + intros [_ H]. destruct (stealth_is_on self); discriminate.
    + intros _. split; [lra | auto].
  - split; [reflexivity | ].
    intros [H | H]; exfalso; apply H; reflexivity.
Qed.

Lemma stamp_moves_only_on_flip_witness :
  let self := {| quit := false; lights_are_on := true;
                 stealth_is_on := false; last_button_time := 3;
                 video_enabled := false; pcm_file := None |} in
  let io := {| controller := {| get_button := fun _ => true;
                                get_axis := fun _ => 0 |};
               time_lights := 4; time_stealth := 4;
               imshow_raises := None; waitKey := (-1)%Z |} in
  last_button_time (fst (fst (processVideo None self io []))) = 4.
Proof.
  intros self io.
  destruct (stamp_moves_only_on_flip None self io []) as [_ H].
  destruct H as [_ [H | H]].
  - left. vm_compute. discriminate.
  - exact H.
  - exact H.
Defined.

(** X5. A call of [processVideo] whose stealth check reads the clock no
    more than [MIN_BUTTON_LAG_SEC] after its lights check never flips
    both flags, whatever the buttons and the stored time. *)
Theorem one_flip_per_frame (cv2 : option Cv2) (self : PS3Rover)
    (io : Tick) (jpegbytes : list Byte.byte)
    (Htick : time_stealth io - time_lights io <= MIN_BUTTON_LAG_SEC) :
  let self' := fst (fst (processVideo cv2 self io jpegbytes)) in
  lights_are_on self' = lights_are_on self \/
  stealth_is_on self' = stealth_is_on self.
Proof.
  frame_statements s1 s2.
  destruct (display_video_fields cv2 s2 io jpegbytes)
    as (Hdl & Hds & _).
  cbv zeta in Hdl, Hds. rewrite Hdl, Hds. clear Hdl Hds.
  unfold s2, s1.
  destruct (toggle_lights_cases self (controller io) (time_lights io))
    as [(_ & Hg1 & ->) | (_ & ->)]; cbn [fst];
    match goal with
    | |- context [toggle_stealth ?s _ _] =>
        destruct (toggle_stealth_cases s (controller io) (time_stealth io))
          as [(_ & Hg2 & ->) | (_ & ->)]
    end; cbn [fst]; simpl in *; auto.
  exfalso. lra.
Qed.

Lemma one_flip_per_frame_witness :
  let self := {| quit := false; lights_are_on := false;
                 stealth_is_on := false; last_button_time := 0;
                 video_enabled := false; pcm_file := None |} in
  let io := {| controller := {| get_button := fun _ => true;
                                get_axis := fun _ => 0 |};
               time_lights := 1; time_stealth := 3 # 2;
               imshow_raises := None; waitKey := (-1)%Z |} in
  let self' := fst (fst (processVideo None self io [])) in
  lights_are_on self' = false \/ stealth_is_on self' = false.
Proof.
  intros self io.
  apply (one_flip_per_frame None self io []).
  vm_compute. discriminate.
Defined.

(** X6. The first press after startup is never debounced: the stored
    time starts at 0, so on the constructed object a frame whose lights
    button is held and whose clock reads more than [MIN_BUTTON_LAG_SEC]
    turns the lights on and calls [turnLightsOn] once. *)
Theorem first_press_is_accepted (cv2 : option Cv2) (st : Startup)
    (self : PS3Rover) (io : Tick) (jpegbytes : list Byte.byte)
    (Hinit : __init__ cv2 st = Ok self)
    (Hheld : get_button (controller io) BUTTON_LIGHTS = true)
    (Hclock : MIN_BUTTON_LAG_SEC < time_lights io) :
  let r := processVideo cv2 self io jpegbytes in
  lights_are_on (fst (fst r)) = true /\
  List.filter is_lights (snd (fst r)) = [TurnLightsOn].
Proof.
  assert (Hfresh : lights_are_on self = false /\ last_button_time self = 0).
  { unfold __init__ in Hinit.
    destruct (super_init st); [discriminate | ].
    destruct (joystick_count st); [discriminate | ].
    injection Hinit as <-. split; reflexivity. }
  destruct Hfresh as [Hoff Hzero].
  frame_statements s1 s2.
  destruct (display_video_fields cv2 s2 io jpegbytes) as (Hdl & _).
  cbv zeta in Hdl. rewrite Hdl. clear Hdl.
  destruct (toggle_stealth_fields s1 (controller io) (time_stealth io))
    as (_ & Hl2 & _).
  cbv zeta in Hl2. fold s2 in Hl2. rewrite Hl2. clear Hl2.
  rewrite !List.filter_app.
  assert (Hst : List.filter is_lights
                  (snd (toggle_stealth s1 (controller io) (time_stealth io)))
                = []).
  { destruct (toggle_stealth_events s1 (controller io) (time_stealth io))
      as [-> | [-> | ->]]; reflexivity. }
  assert (Hdv : List.filter is_lights
                  (snd (fst (display_video cv2 s2 io jpegbytes))) = []).
  { destruct (display_video_events cv2 s2 io jpegbytes)
      as [-> | [image ->]]; reflexivity. }
  assert (Hcam : List.filter is_lights (move_camera (controller io)) = []).
  { unfold move_camera.
    destruct (get_button (controller io) BUTTON_CAMERA_UP);
      [reflexivity | ].
    destruct (get_button (controller io) BUTTON_CAMERA_DOWN); reflexivity. }
  rewrite Hst, Hdv, Hcam. clear Hst Hdv Hcam. unfold s1.
  destruct (toggle_lights_cases self (controller io) (time_lights io))
    as [(_ & _ & ->) | ([Hno | Hno] & _)].
  - simpl. rewrite Hoff. split; reflexivity.
  - congruence.
  - exfalso. rewrite Hzero in Hno. lra.
Qed.

Lemma first_press_is_accepted_witness :
  let st := {| super_init := None; joystick_count := 1;
               namedWindow_ok := false; open_ok := false;
               disk_room := None; get_name := None |} in
  let io := {| controller := {| get_button := fun _ => true;
                                get_axis := fun _ => 0 |};
               time_lights := 1700000000; time_stealth := 1700000000;
               imshow_raises := None; waitKey := (-1)%Z |} in
  exists self,
    __init__ None st = Ok self /\
    lights_are_on (fst (fst (processVideo None self io []))) = true.
Proof.
  intros st io. eexists. split; [reflexivity | ].
  apply (first_press_is_accepted None st _ io []).
  - reflexivity.
  - reflexivity.
  - vm_compute. reflexivity.
Defined.

(** ** Flags and vehicle stay in step *)

Lemma vehicle_lights_app (b : bool) (l1 l2 : list event) :
  vehicle_lights b (l1 ++ l2) = vehicle_lights (vehicle_lights b l1) l2.
Proof. unfold vehicle_lights. apply List.fold_left_app. Qed.

Lemma vehicle_stealth_app (b : bool) (l1 l2 : list event) :
  vehicle_stealth b (l1 ++ l2) = vehicle_stealth (vehicle_stealth b l1) l2.
Proof. unfold vehicle_stealth. apply List.fold_left_app. Qed.

(** One call keeps the flags in step with the commands it sends. *)
Lemma processVideo_in_step (cv2 : option Cv2) (self : PS3Rover) (io : Tick)
    (jpegbytes : list Byte.byte) :
  let r := processVideo cv2 self io jpegbytes in
  vehicle_lights (lights_are_on self) (snd (fst r)) =
    lights_are_on (fst (fst r)) /\
  vehicle_stealth (stealth_is_on self) (snd (fst r)) =
    stealth_is_on (fst (fst r)).
Proof.
  frame_statements s1 s2.
  destruct (display_video_fields cv2 s2 io jpegbytes)
    as (Hdl & Hds & _).
  cbv zeta in Hdl, Hds. rewrite Hdl, Hds. clear Hdl Hds.
  destruct (display_video_events cv2 s2 io jpegbytes)
    as [-> | [image ->]];
    unfold s2, s1;
    (destruct (toggle_lights_cases self (controller io) (time_lights io))
      as [(_ & _ & ->) | (_ & ->)]; cbn [fst snd];
     match goal with
     | |- context [toggle_stealth ?s _ _] =>
         destruct (toggle_stealth_cases s (controller io) (time_stealth io))
           as [(_ & _ & ->) | (_ & ->)]
     end; cbn [fst snd];
     unfold move_camera, set_treads;
     destruct (get_button (controller io) BUTTON_CAMERA_UP);
     destruct (get_button (controller io) BUTTON_CAMERA_DOWN);
     destruct (lights_are_on self) eqn:Hl;
     destruct (stealth_is_on self) eqn:Hs;
     simpl; rewrite ?Hl, ?Hs; split; reflexivity).
Qed.

(** X7. Over any sequence of [processVideo] calls the two flags stay in
    step with the vehicle: replaying the commands sent, from a vehicle
    whose lights and stealth mode were as the flags said at the start,
    gives a vehicle whose lights and stealth mode are as the flags say at
    the end. *)
Theorem flags_follow_vehicle (cv2 : option Cv2)
    (frames : list (Tick * list Byte.byte)) (self : PS3Rover) :
  let r := process_frames cv2 self frames in
  vehicle_lights (lights_are_on self) (snd r) = lights_are_on (fst r) /\
  vehicle_stealth (stealth_is_on self) (snd r) = stealth_is_on (fst r).
Proof.
  revert self.
  induction frames as [|[io jpegbytes] rest IH]; intros self; cbv zeta.
  - split; reflexivity.
  - simpl process_frames.
    pose proof (processVideo_in_step cv2 self io jpegbytes) as H1.
    destruct (processVideo cv2 self io jpegbytes) as [[s1 e1] o1].
    cbv zeta in H1. simpl in H1. destruct H1 as [Hl1 Hs1].
    specialize (IH s1). cbv zeta in IH.
    destruct (process_frames cv2 s1 rest) as [s2 e2].
    simpl in IH. destruct IH as [Hl2 Hs2]. simpl.
    rewrite vehicle_lights_app, vehicle_stealth_app, Hl1, Hs1.
    split; assumption.
Qed.

(** ** The axis mapping as a function of the reading *)

(** X8. The axis mapping is order-reversing and odd: a larger raw reading
    never gives a larger direction, and the negated reading gives the
    negated direction (pushing a stick the other way by the same amount
    reverses the tread). *)
Theorem axis_value_antitone_odd (c1 c2 : Controller) (i j : Z) :
  (get_axis c1 i <= get_axis c2 j ->
   (_get_axis_value c2 j <= _get_axis_value c1 i)%Z) /\
  (get_axis c2 j == - get_axis c1 i ->
   _get_axis_value c2 j = (- _get_axis_value c1 i)%Z).
Proof.
  assert (Hdz : 0 < MIN_AXIS_ABSVAL) by reflexivity.
  unfold _get_axis_value.
  set (x := get_axis c1 i). set (y := get_axis c2 j).
  destruct (Qgtb (- x) MIN_AXIS_ABSVAL) eqn:Hx1;
    [ apply Qgtb_true in Hx1
    | apply Qgtb_false in Hx1;
      destruct (Qltb (- x) (- MIN_AXIS_ABSVAL)) eqn:Hx2;
      [ apply Qltb_true in Hx2 | apply Qltb_false in Hx2 ] ];
    (destruct (Qgtb (- y) MIN_AXIS_ABSVAL) eqn:Hy1;
     [ apply Qgtb_true in Hy1
     | apply Qgtb_false in Hy1;
       destruct (Qltb (- y) (- MIN_AXIS_ABSVAL)) eqn:Hy2;
       [ apply Qltb_true in Hy2 | apply Qltb_false in Hy2 ] ]);
    split; intros H; try lia; try reflexivity; exfalso; lra.
Qed.

Lemma axis_value_antitone_odd_witness :
  let c1 := {| get_button := fun _ => false; get_axis := fun _ => 3 # 10 |} in
  let c2 := {| get_button := fun _ => false;
               get_axis := fun _ => - (3 # 10) |} in
  _get_axis_value c2 1 = (- _get_axis_value c1 1)%Z /\
  (_get_axis_value c1 1 <= _get_axis_value c2 3)%Z.
Proof.
  intros c1 c2.
  destruct (axis_value_antitone_odd c1 c2 1 1) as [_ Hodd].
  destruct (axis_value_antitone_odd c2 c1 3 1) as [Hanti _].
  split.
  - apply Hodd. reflexivity.
  - apply Hanti. vm_compute. discriminate.
Defined.

(** ** Presenting a frame *)

Lemma filter_display_controls (self : PS3Rover) (c : Controller)
    (t_lights t_stealth : Q) :
  let s1 := fst (toggle_lights self c t_lights) in
  List.filter is_display
    (snd (toggle_lights self c t_lights) ++
     snd (toggle_stealth s1 c t_stealth) ++
     move_camera c ++ set_treads c) = [].
Proof.
  cbv zeta.
  destruct (toggle_lights_events self c t_lights) as [-> | [-> | ->]];
    destruct (toggle_stealth_events (fst (toggle_lights self c t_lights))
                                    c t_stealth) as [-> | [-> | ->]];
    unfold move_camera;
    destruct (get_button c BUTTON_CAMERA_UP);
    destruct (get_button c BUTTON_CAMERA_DOWN);
    reflexivity.
Qed.

(** X9. When the window exists and the frame decodes and is shown
    without error, [processVideo] returns normally, shows exactly that
    decoded image once, and afterwards [quit] is true exactly if it was
    already true or the low byte of the key code is 27; so the code -1
    that [waitKey] gives when no key is pressed never quits. *)
Theorem decoded_frame_is_shown (cv2 : option Cv2) (self : PS3Rover)
    (io : Tick) (jpegbytes : list Byte.byte) (cv : Cv2) (image : raster)
    (Hwindow : video_enabled self = true)
    (Hcv : cv2 = Some cv)
    (Hdecoded : imdecode cv jpegbytes = Decoded image)
    (Hshown : imshow_raises io = None) :
  let r := processVideo cv2 self io jpegbytes in
  snd r = Returned /\
  List.filter is_display (snd (fst r)) = [Imshow image] /\
  quit (fst (fst r)) = quit self || (Z.land (waitKey io) 255 =? 27)%Z /\
  (waitKey io = (-1)%Z -> quit (fst (fst r)) = quit self).
Proof.
  assert (Hq : quit (fst (fst (processVideo cv2 self io jpegbytes))) =
               quit self || (Z.land (waitKey io) 255 =? 27)%Z).
  { rewrite processVideo_quit. unfold escape_seen.
    rewrite Hwindow, Hcv, Hdecoded, Hshown. reflexivity. }
  cbv zeta. split; [ | split; [ | split]].
  - frame_statements s1 s2.
    destruct (before_display_fields self (controller io)
                (time_lights io) (time_stealth io)) as (_ & Hv & _).
    cbv zeta in Hv. fold s1 in Hv. fold s2 in Hv.
    unfold display_video. rewrite Hv, Hwindow, Hcv, Hdecoded, Hshown.
    destruct (Z.land (waitKey io) 255 =? 27)%Z; reflexivity.
  - frame_statements s1 s2.
    destruct (before_display_fields self (controller io)
                (time_lights io) (time_stealth io)) as (_ & Hv & _).
    cbv zeta in Hv. fold s1 in Hv. fold s2 in Hv.
    rewrite !List.app_assoc, List.filter_app.
    rewrite <- !List.app_assoc.
    unfold s1 at 1.
    rewrite (filter_display_controls self (controller io)
               (time_lights io) (time_stealth io)).
    unfold display_video. rewrite Hv, Hwindow, Hcv, Hdecoded, Hshown.
    destruct (Z.land (waitKey io) 255 =? 27)%Z; reflexivity.
  - exact Hq.
  - intros Hkey. rewrite Hq, Hkey. simpl. apply orb_false_r.
Qed.

Lemma decoded_frame_is_shown_witness :
  let cv := {| imdecode := fun b => Decoded b |} in
  let self := {| quit := false; lights_are_on := false;
                 stealth_is_on := false; last_button_time := 0;
                 video_enabled := true; pcm_file := None |} in
  let io := {| controller := {| get_button := fun _ => false;
                                get_axis := fun _ => 0 |};
               time_lights := 1; time_stealth := 1;
               imshow_raises := None; waitKey := 283%Z |} in
  quit (fst (fst (processVideo (Some cv) self io [Byte.x05]))) = true.
Proof.
  intros cv self io.
  destruct (decoded_frame_is_shown (Some cv) self io [Byte.x05] cv
              [Byte.x05] eq_refl eq_refl eq_refl eq_refl)
    as (_ & _ & Hq & _).
  rewrite Hq. reflexivity.
Defined.

(** X10. An exception raised inside the display block of
    [processVideo], by the decoder or by [imshow] on a decoded frame,
    leaves [quit] as it was and shows nothing; a [cv2.error] or a
    [ValueError] is absorbed and the call returns, and an exception of
    any other class leaves [processVideo] as it is. *)
Theorem display_errors_by_class (cv2 : option Cv2) (self : PS3Rover)
    (io : Tick) (jpegbytes : list Byte.byte) (cv : Cv2) (e : pyexn)
    (Hwindow : video_enabled self = true)
    (Hcv : cv2 = Some cv)
    (Hraise : imdecode cv jpegbytes = DecodeRaises e \/
              (exists image, imdecode cv jpegbytes = Decoded image) /\
              imshow_raises io = Some e) :
  let r := processVideo cv2 self io jpegbytes in
  (e = Cv2Error \/ e = ValueError -> snd r = Returned) /\
  (e <> Cv2Error -> e <> ValueError -> snd r = Raised e) /\
  quit (fst (fst r)) = quit self /\
  List.filter is_display (snd (fst r)) = [].
Proof.
  assert (Hblock : forall s : PS3Rover,
             video_enabled s = true ->
             display_video cv2 s io jpegbytes =
               (s, [], except_cv2_ValueError e)).
  { intros s Hs. unfold display_video. rewrite Hs, Hcv.
    destruct Hraise as [-> | [[image ->] ->]]; reflexivity. }
  frame_statements s1 s2.
  destruct (before_display_fields self (controller io)
              (time_lights io) (time_stealth io)) as (Hq & Hv & _).
  cbv zeta in Hq, Hv. fold s1 in Hq, Hv. fold s2 in Hq, Hv.
  rewrite (Hblock s2) by (rewrite Hv; exact Hwindow).
  cbn [fst snd]. repeat apply conj.
  - intros [-> | ->]; reflexivity.
  - intros Hcv2 Hval. destruct e; try reflexivity; congruence.
  - exact Hq.
  - rewrite List.app_nil_r. unfold s1.
    apply (filter_display_controls self (controller io)
             (time_lights io) (time_stealth io)).
Qed.

Lemma display_errors_by_class_witness :
  let cv := {| imdecode := fun b => Decoded b |} in
  let self := {| quit := false; lights_are_on := false;
                 stealth_is_on := false; last_button_time := 0;
                 video_enabled := true; pcm_file := None |} in
  let io := {| controller := {| get_button := fun _ => false;
                                get_axis := fun _ => 0 |};
               time_lights := 1; time_stealth := 1;
               imshow_raises := Some Cv2Error; waitKey := 27%Z |} in
  snd (processVideo (Some cv) self io [Byte.x01]) = Returned /\
  quit (fst (fst (processVideo (Some cv) self io [Byte.x01]))) = false.
Proof.
  intros cv self io.
  destruct (display_errors_by_class (Some cv) self io [Byte.x01] cv
              Cv2Error eq_refl eq_refl) as (Habs & _ & Hq & _).
  - right. split; [exists [Byte.x01]; reflexivity | reflexivity].
  - split; [apply Habs; left; reflexivity | exact Hq].
Defined.

(** ** More on the audio capture *)

Lemma set_pcm_file_same (self : PS3Rover) :
  set_pcm_file self (pcm_file self) = self.
Proof. destruct self; reflexivity. Qed.

(** Whether a write fails depends on the file, not on the text. *)
Lemma pcm_write_refused (f : PcmFile) (s : string) (e : pyexn) :
  pcm_write f s = Raise e ->
  forall pcmsamples, fst (write_samples f pcmsamples) = f.
Proof.
  intros Hfail [|samp rest]; [reflexivity | ].
  simpl. unfold pcm_write in *.
  destruct (closed f); [reflexivity | ].
  destruct (room f) as [[|r]|]; try discriminate. reflexivity.
Qed.

Lemma write_samples_app (a : list Z) :
  forall (f : PcmFile) (b : list Z),
    fst (write_samples (fst (write_samples f a)) b) =
    fst (write_samples f (a ++ b)).
Proof.
  induction a as [|samp rest IH]; intros f b; [reflexivity | ].
  simpl.
  destruct (pcm_write f (format_sample samp)) as [f'|e] eqn:Hw.
  - apply IH.
  - simpl. apply (pcm_write_refused f _ e Hw).
Qed.

Lemma processAudio_file (self : PS3Rover) (pcmsamples : list Z) :
  fst (processAudio self pcmsamples) =
  set_pcm_file self
    (match pcm_file self with
     | Some f => Some (fst (write_samples f pcmsamples))
     | None => None
     end).
Proof.
  unfold processAudio.
  destruct (pcm_file self) as [f|] eqn:Hf.
  - destruct (write_samples f pcmsamples) as [f' o]. reflexivity.
  - rewrite <- Hf. rewrite set_pcm_file_same. reflexivity.
Qed.

(** X11. Recording two batches one after the other leaves the object,
    and so the capture file, exactly as recording their concatenation in
    one call does: whether the file is missing, open, refusing writes
    from some sample on, or closed. *)
Theorem processAudio_batches_compose (self : PS3Rover) (a b : list Z) :
  fst (processAudio (fst (processAudio self a)) b) =
  fst (processAudio self (a ++ b)).
Proof.
  rewrite !processAudio_file.
  destruct (pcm_file self) as [f|] eqn:Hf; simpl.
  - rewrite write_samples_app. reflexivity.
  - reflexivity.
Qed.

(** X12. Once [cleanup] has closed the capture file, a later non-empty
    audio batch is not absorbed: the write raises [ValueError], which
    [except IOError] does not catch, so [processAudio] ends with that
    exception, and nothing is written.  An empty batch still returns
    normally. *)
Theorem processAudio_after_cleanup (cv2 : option Cv2) (self : PS3Rover)
    (f : PcmFile) (samp : Z) (rest : list Z)
    (Hfile : pcm_file self = Some f) :
  let closed_rover := fst (cleanup cv2 self) in
  processAudio closed_rover (samp :: rest) =
    (closed_rover, Raised ValueError) /\
  processAudio closed_rover [] = (closed_rover, Returned) /\
  exists f', pcm_file closed_rover = Some f' /\ written f' = written f.
Proof.
  cbv zeta. unfold cleanup. rewrite Hfile. cbn [fst].
  set (s := set_pcm_file self (Some (pcm_close f))).
  assert (Hs : pcm_file s = Some (pcm_close f)) by reflexivity.
  repeat apply conj.
  - unfold processAudio. rewrite Hs. cbn.
    rewrite <- Hs, set_pcm_file_same. reflexivity.
  - unfold processAudio. rewrite Hs. cbn.
    rewrite <- Hs, set_pcm_file_same. reflexivity.
  - exists (pcm_close f). split; [exact Hs | reflexivity].
Qed.

Lemma processAudio_after_cleanup_witness :
  let f := {| written := "12"%string; closed := false; room := None |} in
  let self := {| quit := true; lights_are_on := false;
                 stealth_is_on := false; last_button_time := 0;
                 video_enabled := false; pcm_file := Some f |} in
  snd (processAudio (fst (cleanup None self)) [3]%Z) = Raised ValueError.
Proof.
  intros f self.
  destruct (processAudio_after_cleanup None self f 3%Z [] eq_refl)
    as (H & _).
  rewrite H. reflexivity.
Defined.

(** X13. [cleanup] is idempotent: a second call (as [__del__] makes when
    the object is collected after [main] has cleaned up) repeats the same
    calls and leaves the object as the first call left it; and it never
    changes the text already captured. *)
Theorem cleanup_idempotent (cv2 : option Cv2) (self : PS3Rover) :
  let once := fst (cleanup cv2 self) in
  cleanup cv2 once = (once, snd (cleanup cv2 self)) /\
  __del__ cv2 once = (once, snd (cleanup cv2 self)) /\
  option_map written (pcm_file once) = option_map written (pcm_file self).
Proof.
  cbv zeta. unfold __del__, cleanup.
  destruct (pcm_file self) as [f|] eqn:Hf; cbn.
  - repeat apply conj; reflexivity.
  - rewrite Hf. repeat apply conj; reflexivity.
Qed.

(** ** Audio and video handlers do not interfere *)

Lemma toggle_lights_set_pcm_file (self : PS3Rover) (g : option PcmFile)
    (c : Controller) (now : Q) :
  toggle_lights (set_pcm_file self g) c now =
  (set_pcm_file (fst (toggle_lights self c now)) g,
   snd (toggle_lights self c now)).
Proof.
  unfold toggle_lights, _check_button. simpl.
  destruct (get_button c BUTTON_LIGHTS); [ | reflexivity].
  destruct (Qgtb (now - last_button_time self) MIN_BUTTON_LAG_SEC);
    [ | reflexivity].
  destruct (lights_are_on self); reflexivity.
Qed.

Lemma toggle_stealth_set_pcm_file (self : PS3Rover) (g : option PcmFile)
    (c : Controller) (now : Q) :
  toggle_stealth (set_pcm_file self g) c now =
  (set_pcm_file (fst (toggle_stealth self c now)) g,
   snd (toggle_stealth self c now)).
Proof.
  unfold toggle_stealth, _check_button. simpl.
  destruct (get_button c BUTTON_STEALTH); [ | reflexivity].
  destruct (Qgtb (now - last_button_time self) MIN_BUTTON_LAG_SEC);
    [ | reflexivity].
  destruct (stealth_is_on self); reflexivity.
Qed.

Lemma display_video_set_pcm_file (cv2 : option Cv2) (self : PS3Rover)
    (g : option PcmFile) (io : Tick) (jpegbytes : list Byte.byte) :
  display_video cv2 (set_pcm_file self g) io jpegbytes =
  (set_pcm_file (fst (fst (display_video cv2 self io jpegbytes))) g,
   snd (fst (display_video cv2 self io jpegbytes)),
   snd (display_video cv2 self io jpegbytes)).
Proof.
  unfold display_video. simpl.
  destruct (video_enabled self), cv2 as [cv|]; try reflexivity.
  destruct (imdecode cv jpegbytes); try reflexivity.
  destruct (imshow_raises io); try reflexivity.
  destruct (Z.land (waitKey io) 255 =? 27)%Z; reflexivity.
Qed.

Lemma processVideo_set_pcm_file (cv2 : option Cv2) (self : PS3Rover)
    (g : option PcmFile) (io : Tick) (jpegbytes : list Byte.byte) :
  processVideo cv2 (set_pcm_file self g) io jpegbytes =
  (set_pcm_file (fst (fst (processVideo cv2 self io jpegbytes))) g,
   snd (fst (processVideo cv2 self io jpegbytes)),
   snd (processVideo cv2 self io jpegbytes)).
Proof.
  rewrite !processVideo_steps. cbv zeta.
  rewrite toggle_lights_set_pcm_file. cbn [fst snd].
  rewrite toggle_stealth_set_pcm_file. cbn [fst snd].
  rewrite display_video_set_pcm_file. reflexivity.
Qed.

Lemma processVideo_pcm_file (cv2 : option Cv2) (self : PS3Rover) (io : Tick)
    (jpegbytes : list Byte.byte) :
  pcm_file (fst (fst (processVideo cv2 self io jpegbytes))) = pcm_file self.
Proof.
  rewrite processVideo_steps. cbv zeta.
  change (fst (fst (?a, ?b, ?c))) with a. cbv beta.
  match goal with
  | |- context [display_video cv2 ?s io jpegbytes] =>
      destruct (display_video_fields cv2 s io jpegbytes)
        as (_ & _ & _ & _ & Hp)
  end.
  cbv zeta in Hp. rewrite Hp.
  apply (before_display_fields self (controller io)
           (time_lights io) (time_stealth io)).
Qed.

Lemma processAudio_outcome (self self' : PS3Rover) (pcmsamples : list Z) :
  pcm_file self = pcm_file self' ->
  snd (processAudio self pcmsamples) = snd (processAudio self' pcmsamples).
Proof.
  intro H. unfold processAudio. rewrite H.
  destruct (pcm_file self') as [f|]; [ | reflexivity].
  destruct (write_samples f pcmsamples) as [f' o]. reflexivity.
Qed.

(** X14. The frame handler and the audio handler commute: handling a
    frame and then an audio batch leaves the same object, sends the same
    commands and ends each handler the same way as handling the batch
    first and the frame second.  [processVideo] never touches the
    capture file and [processAudio] touches nothing else. *)
Theorem audio_video_commute (cv2 : option Cv2) (self : PS3Rover)
    (io : Tick) (jpegbytes : list Byte.byte) (pcmsamples : list Z) :
  let v := processVideo cv2 self io jpegbytes in
  let a := processAudio self pcmsamples in
  let va := processAudio (fst (fst v)) pcmsamples in
  let av := processVideo cv2 (fst a) io jpegbytes in
  fst va = fst (fst av) /\
  snd (fst av) = snd (fst v) /\
  snd av = snd v /\
  snd va = snd a.
Proof.
  cbv zeta.
  rewrite (processAudio_file self pcmsamples).
  rewrite processVideo_set_pcm_file. cbn [fst snd].
  rewrite processAudio_file, processVideo_pcm_file.
  repeat apply conj; try reflexivity.
  apply processAudio_outcome. apply processVideo_pcm_file.
Qed.

(** ** How and when [main] ends *)






Lemma processAudio_keeps_file (self : PS3Rover) (pcmsamples : list Z) :
  pcm_file (fst (processAudio self pcmsamples)) = None <->
  pcm_file self = None.
Proof.
  rewrite processAudio_file. cbn.
  destruct (pcm_file self); split; auto; discriminate.
Qed.





(** ** Reading the capture file back *)

Lemma append_cons (c : ascii) (s t : string) :
  String.append (String c s) t = String c (String.append s t).
Proof. reflexivity. Qed.

Lemma uint_digits_no_newline (d : Decimal.uint) :
  no_newline (NilEmpty.string_of_uint d) = true.
Proof. induction d; simpl; auto. Qed.

Lemma uint_text_no_newline (d : Decimal.uint) :
  no_newline (NilZero.string_of_uint d) = true.
Proof.
  destruct d; try reflexivity;
    match goal with
    | |- no_newline (NilZero.string_of_uint ?x) = true =>
        exact (uint_digits_no_newline x)
    end.
Qed.

Lemma decimal_no_newline (z : Z) : no_newline (decimal z) = true.
Proof.
  unfold decimal, NilZero.string_of_int.
  destruct (Z.to_int z) as [d|d].
  - apply uint_text_no_newline.
  - cbn [no_newline]. rewrite uint_text_no_newline. reflexivity.
Qed.

(** A text without newline, then a newline, is one line. *)
Lemma lines_from_line (s : string) :
  forall acc rest : string,
    no_newline s = true ->
    lines_from acc (String.append s (String.append newline rest)) =
    String.append acc s :: lines_from EmptyString rest.
Proof.
  induction s as [|c s IH]; intros acc rest Hs.
  - rewrite append_empty_r. reflexivity.
  - simpl in Hs. apply andb_true_iff in Hs. destruct Hs as [Hc Hs].
    apply negb_true_iff in Hc.
    rewrite append_cons. cbn [lines_from]. rewrite Hc.
    rewrite (IH _ rest Hs), append_assoc. reflexivity.
Qed.

Lemma format_sample_decimal (samp : Z) :
  format_sample samp = String.append (decimal samp) newline.
Proof. reflexivity. Qed.

Lemma lines_batch_text (pcmsamples : list Z) :
  lines (batch_text pcmsamples) = List.map decimal pcmsamples.
Proof.
  unfold lines.
  induction pcmsamples as [|samp rest IH]; [reflexivity | ].
  cbn [batch_text List.map]. rewrite format_sample_decimal, append_assoc.
  rewrite lines_from_line by apply decimal_no_newline.
  rewrite IH. reflexivity.
Qed.

Lemma parse_line_decimal (z : Z) : parse_line (decimal z) = Some z.
Proof.
  unfold parse_line, decimal.
  rewrite NilZero.isi.
  - simpl. rewrite DecimalZ.of_to. reflexivity.
  - destruct z as [|p|p]; simpl; try discriminate.
    intros [= H]. exact (DecimalPos.Unsigned.to_uint_nonnil p H).
  - destruct z as [|p|p]; simpl; try discriminate.
    intros [= H]. exact (DecimalPos.Unsigned.to_uint_nonnil p H).
Qed.

(** X17. The capture file can be read back: on a file opened empty, not
    closed and on a device that takes every write, after any batches
    recorded so far and one more, the lines of the file are the decimal
    texts of all recorded samples in order, and parsing each line as an
    integer gives back exactly those samples, negative ones included. *)
Theorem capture_reads_back (self : PS3Rover) (f : PcmFile)
    (recorded pcmsamples : list Z)
    (Hfile : pcm_file self = Some f)
    (Hopen : closed f = false)
    (Hroom : room f = None)
    (Hsofar : written f = batch_text recorded) :
  exists f',
    pcm_file (fst (processAudio self pcmsamples)) = Some f' /\
    written f' = batch_text (recorded ++ pcmsamples) /\
    closed f' = false /\ room f' = None /\
    lines (written f') = List.map decimal (recorded ++ pcmsamples) /\
    read_samples (written f') = List.map Some (recorded ++ pcmsamples).
Proof.
  assert (Htext : forall a b,
             batch_text (a ++ b) = String.append (batch_text a) (batch_text b)).
  { induction a as [|x a IH]; intros b; [reflexivity | ].
    cbn [List.app batch_text]. rewrite IH, append_assoc. reflexivity. }
  assert (Hkeep : forall l g, room g = None -> closed g = false ->
             room (fst (write_samples g l)) = None).
  { induction l as [|x l IH]; intros g Hr Hc; [exact Hr | ].
    cbn [write_samples]. unfold pcm_write. rewrite Hc, Hr.
    apply IH; reflexivity. }
  rewrite processAudio_file, Hfile. cbn.
  pose proof (write_samples_open pcmsamples f Hopen) as H.
  cbv zeta in H. pose proof (Hkeep pcmsamples f Hroom Hopen) as Hr.
  destruct (write_samples f pcmsamples) as [f' o].
  destruct H as (Hw & Hc & _). cbn [fst] in Hr.
  rewrite Hroom in Hw. cbn [accepted] in Hw.
  rewrite List.firstn_all, Hsofar, <- Htext in Hw.
  exists f'. repeat apply conj; auto.
  - rewrite Hw. apply lines_batch_text.
  - unfold read_samples. rewrite Hw, lines_batch_text, List.map_map.
    apply List.map_ext. intros z. apply parse_line_decimal.
Qed.

Lemma capture_reads_back_witness :
  let f := {| written := batch_text [5; -6]%Z; closed := false;
              room := None |} in
  let self := {| quit := false; lights_are_on := false;
                 stealth_is_on := false; last_button_time := 0;
                 video_enabled := false; pcm_file := Some f |} in
  exists f',
    pcm_file (fst (processAudio self [0; -32768; 32767]%Z)) = Some f' /\
    read_samples (written f') =
      [Some 5; Some (-6); Some 0; Some (-32768); Some 32767]%Z.
Proof.
  intros f self.
  destruct (capture_reads_back self f [5; -6]%Z [0; -32768; 32767]%Z
              eq_refl eq_refl eq_refl eq_refl)
    as (f' & Hf & _ & _ & _ & _ & Hread).
  exists f'. split; [exact Hf | exact Hread].
Defined.

(** ** Audio has no part in control *)

Lemma finally_block_file_content (cv2 : option Cv2) (self : PS3Rover)
    (g : option PcmFile) :
  (g = None <-> pcm_file self = None) ->
  finally_block cv2 (Some (set_pcm_file self g)) =
  finally_block cv2 (Some self).
Proof.
  intros Hg. unfold finally_block, cleanup.
  destruct self as [q l s t v [f|]], g as [f'|]; cbn in *;
    try reflexivity;
    destruct Hg as [H1 H2];
    first [discriminate (H1 eq_refl) | discriminate (H2 eq_refl)].
Qed.

(** The idle loop on two objects that differ only in what their capture
    file holds, the second one fed the frames and interrupts only. *)
Lemma idle_loop_without_audio (cv2 : option Cv2) (arrivals : list arrival) :
  forall (self : PS3Rover) (g : option PcmFile),
    (g = None <-> pcm_file self = None) ->
    match idle_loop cv2 self arrivals,
          idle_loop cv2 (set_pcm_file self g)
                    (List.filter is_control_arrival arrivals) with
    | Some (s, ev, o), Some (s', ev', o') =>
        ev = ev' /\ o = o' /\
        exists g', s' = set_pcm_file s g' /\
                   (g' = None <-> pcm_file s = None)
    | None, None => True
    | _, _ => False
    end.
Proof.
  induction arrivals as [|a rest IH]; intros self g Hg.
  - cbn. destruct (quit self); [ | exact I].
    repeat split; auto. exists g. split; [reflexivity | exact Hg].
  - destruct (quit self) eqn:Hq.
    { rewrite (idle_loop_quit cv2 self _ Hq).
      rewrite (idle_loop_quit cv2 (set_pcm_file self g) _ Hq).
      repeat split; auto. exists g. split; [reflexivity | exact Hg]. }
    destruct a as [ | io jpegbytes | pcmsamples | ];
      cbn [List.filter is_control_arrival idle_loop]; rewrite ?Hq.
    + apply IH. exact Hg.
    + change (quit (set_pcm_file self g)) with (quit self). rewrite Hq.
      rewrite processVideo_set_pcm_file.
      pose proof (processVideo_pcm_file cv2 self io jpegbytes) as Hp.
      destruct (processVideo cv2 self io jpegbytes) as [[s1 e1] o1].
      cbn [fst snd] in *.
      assert (Hg1 : g = None <-> pcm_file s1 = None) by (rewrite Hp; exact Hg).
      specialize (IH s1 g Hg1).
      destruct (idle_loop cv2 s1 rest) as [[[s2 e2] o2]|];
        destruct (idle_loop cv2 (set_pcm_file s1 g)
                    (List.filter is_control_arrival rest))
          as [[[s2' e2'] o2']|]; auto.
      destruct IH as (-> & -> & Hrel). auto.
    + pose proof (processAudio_file self pcmsamples) as Hfile.
      pose proof (processAudio_keeps_file self pcmsamples) as Hkeep.
      destruct (processAudio self pcmsamples) as [s1 o1].
      cbn [fst] in Hfile, Hkeep.
      assert (Hg1 : g = None <-> pcm_file s1 = None)
        by (rewrite Hkeep; exact Hg).
      specialize (IH s1 g Hg1).
      assert (Hset : set_pcm_file s1 g = set_pcm_file self g)
        by (rewrite Hfile; reflexivity).
      rewrite Hset in IH. exact IH.
    + change (quit (set_pcm_file self g)) with (quit self). rewrite Hq.
      rewrite !signal_handler_in_module.
      repeat split; auto. exists g. split; [reflexivity | exact Hg].
Qed.

(** X18. Audio batches and idle sleeps have no part in control: a run of
    [main] sends the same commands, makes the same window, file and
    connection calls and ends the same way (or is still running) as the
    run that meets only the frames and interrupts of the same arrivals. *)
Theorem main_ignores_audio (cv2 : option Cv2) (st : Startup)
    (arrivals : list arrival) :
  main cv2 st arrivals =
  main cv2 st (List.filter is_control_arrival arrivals).
Proof.
  unfold main.
  destruct (__init__ cv2 st) as [self|e]; [ | reflexivity].
  destruct (get_name st); [reflexivity | ].
  pose proof (idle_loop_without_audio cv2 arrivals self (pcm_file self)) as H.
  rewrite set_pcm_file_same in H.
  destruct (idle_loop cv2 self arrivals) as [[[s ev] o]|];
    destruct (idle_loop cv2 self (List.filter is_control_arrival arrivals))
      as [[[s' ev'] o']|];
    try (exfalso; apply H; tauto); [ | reflexivity].
  destruct H as (<- & <- & g' & -> & Hg'); [tauto | ].
  rewrite finally_block_file_content by exact Hg'. reflexivity.
Qed.
